(** * Crashlytics alerts to Microsoft Teams: a shallow embedding

    The repository holds two Firebase Cloud Functions files:

    - [crashlytics_velocity_alert_teams.js], the standalone velocity handler,
      which builds its Adaptive Card inline and posts it inside its own
      try/catch;
    - the refactored file with two handlers ([sendVelocityAlertToTeams],
      [sendNonFatalIssueToTeams]) and the shared helpers [buildTeamsCard]
      and [sendToTeams].

    JavaScript values are embedded as the inductive [JsValue]; objects are
    association lists in insertion order.  Handlers run in a small monad
    threading the logger output and the outgoing HTTP requests, with
    JavaScript exceptions as an explicit completion.  The platform (secret
    store, clock, [Date], locale formatting, network) is an explicit
    [Runtime] record. *)

From Stdlib Require Import String Ascii List ZArith Bool Lia DecimalString DecimalN.
Import ListNotations.
Local Open Scope string_scope.
Local Open Scope Z_scope.

(** ** JavaScript values *)

(** A finite JavaScript number by its decimal expansion:
    [unscaled * 10 ^ (- scale)], the expansion [String] prints from.  JSON
    payloads carry only finite numbers (no NaN, no infinities); which
    expansions a double holds is [Number.exact] below. *)
Record JsNumber : Type := mkNum { unscaled : Z; scale : nat }.

Definition num_of_Z (z : Z) : JsNumber := mkNum z 0.

#[warnings="-register-all"]
Inductive JsValue : Type :=
| JUndefined
| JNull
| JBool (b : bool)
| JNum (n : JsNumber)
| JStr (s : string)
| JArr (items : list JsValue)
| JObj (fields : list (string * JsValue)).

Module Number.

Definition digits (n : Z) : string :=
  NilZero.string_of_uint (N.to_uint (Z.to_N n)).

Fixpoint zeros (n : nat) : string :=
  match n with
  | O => ""
  | S n' => String "0" (zeros n')
  end.

(** The significant digits: the decimal digits without trailing zeros. *)
Fixpoint significant (d : string) : string :=
  match d with
  | "" => ""
  | String c rest =>
      match significant rest with
      | "" => if Ascii.eqb c "0" then "" else String c ""
      | rest' => String c rest'
      end
  end.

(** The position of the decimal point: the value is
    [0.d1 d2 ... dk * 10 ^ point], the [n] of [Number::toString]. *)
Definition point (n : JsNumber) : Z :=
  Z.of_nat (String.length (digits (Z.abs (unscaled n)))) - Z.of_nat (scale n).

(** [Number::toString] in radix 10, on the [k] significant digits [s] and
    the point [n]: digits and zeros for [k <= n <= 21], a decimal point
    inside the digits for [0 < n <= 21], "0." and zeros for [-6 < n <= 0],
    exponent notation otherwise. *)
Definition toString (n : JsNumber) : string :=
  let u := unscaled n in
  if u =? 0 then "0"
  else
    let sign := if u <? 0 then "-" else "" in
    let s := significant (digits (Z.abs u)) in
    let k := String.length s in
    let pt := point n in
    sign ++
    (if (Z.of_nat k <=? pt) && (pt <=? 21)
     then s ++ zeros (Z.to_nat pt - k)
     else if (0 <? pt) && (pt <=? 21)
     then substring 0 (Z.to_nat pt) s ++ "."
          ++ substring (Z.to_nat pt) (k - Z.to_nat pt) s
     else if (-6 <? pt) && (pt <=? 0)
     then "0." ++ zeros (Z.to_nat (- pt)) ++ s
     else
       let e := pt - 1 in
       let exponent := (if e <? 0 then "-" else "+") ++ digits (Z.abs e) in
       match s with
       | String c "" => String c ("e" ++ exponent)
       | String c rest => String c ("." ++ rest ++ "e" ++ exponent)
       | "" => "e" ++ exponent
       end).

(** The expansions a double holds exactly, so that [toString] prints them
    back: at most 15 significant digits, within the range of the normal
    doubles.  Counts, percentages and HTTP statuses are of this kind. *)
Definition exact (n : JsNumber) : bool :=
  (unscaled n =? 0)
  || ((String.length (significant (digits (Z.abs (unscaled n)))) <=? 15)%nat
      && (-300 <=? point n) && (point n <=? 300)).

(** [ToBoolean] on a number: zero is the only falsy finite number. *)
Definition truthy (n : JsNumber) : bool := negb (unscaled n =? 0).

End Number.

(** [ToBoolean]. *)
Definition truthy (v : JsValue) : bool :=
  match v with
  | JUndefined | JNull => false
  | JBool b => b
  | JNum n => Number.truthy n
  | JStr s => negb (String.eqb s "")
  | JArr _ | JObj _ => true
  end.

(** [a || b] *)
Definition js_or (a b : JsValue) : JsValue := if truthy a then a else b.

Definition nullish (v : JsValue) : bool :=
  match v with
  | JUndefined | JNull => true
  | _ => false
  end.

Fixpoint join (sep : string) (l : list string) : string :=
  match l with
  | [] => ""
  | [x] => x
  | x :: rest => x ++ sep ++ join sep rest
  end.

(** [ToString], as applied by [String(v)] and by template literals.
    Arrays print through [Array.prototype.join], plain objects through
    [Object.prototype.toString].  The conversion of a primitive never
    throws; that of an object can (one that shadows [toString]), which the
    properties that convert a quantified value exclude by [primitive]. *)
Fixpoint ToString (v : JsValue) : string :=
  match v with
  | JUndefined => "undefined"
  | JNull => "null"
  | JBool true => "true"
  | JBool false => "false"
  | JNum n => Number.toString n
  | JStr s => s
  | JArr items =>
      join "," (map (fun x => if nullish x then "" else ToString x) items)
  | JObj _ => "[object Object]"
  end.

(** ** Property access *)

Fixpoint lookup (k : string) (fields : list (string * JsValue)) : JsValue :=
  match fields with
  | [] => JUndefined
  | (k', v) :: rest => if String.eqb k k' then v else lookup k rest
  end.

(** [v?.k]: the property [k] of [v], [undefined] when [v] has none.  The
    program reads only named data properties of plain objects; no primitive
    or array has one of those names. *)
Definition prop (v : JsValue) (k : string) : JsValue :=
  match v with
  | JObj fields => lookup k fields
  | _ => JUndefined
  end.

(** ** Errors and completions *)

Record Response : Type := mkResponse { status : Z; data : JsValue }.

(** Thrown values, by the two properties the catch blocks read:
    [error.message] and [error.response].  The other fields of an axios
    error (its code, its request configuration) are read nowhere in the
    program and are left out. *)
Inductive JsError : Type :=
| TypeError (message : string)
| AxiosError (message : string) (response : option Response).

Definition error_message (e : JsError) : string :=
  match e with
  | TypeError m => m
  | AxiosError m _ => m
  end.

Definition error_response (e : JsError) : option Response :=
  match e with
  | TypeError _ => None
  | AxiosError _ r => r
  end.

Inductive Completion (A : Type) : Type :=
| Normal (a : A)
| Throw (e : JsError).
Arguments Normal {A} a.
Arguments Throw {A} e.

Definition cannot_read (v : JsValue) (k : string) : JsError :=
  TypeError ("Cannot read properties of " ++ ToString v
             ++ " (reading '" ++ k ++ "')").

(** [v.k]: a TypeError on [undefined] and [null]. *)
Definition get (v : JsValue) (k : string) : Completion JsValue :=
  if nullish v then Throw (cannot_read v k) else Normal (prop v k).

(** The TypeError of a destructuring pattern whose value, written [source]
    in the program, is [undefined] or [null]; it names the first property
    of the pattern. *)
Definition cannot_destructure (source : string) (v : JsValue) (k : string)
    : JsError :=
  TypeError ("Cannot destructure property '" ++ k ++ "' of '" ++ source
             ++ "' as it is " ++ ToString v ++ ".").

(** The binding of [k] by the pattern [const { ..., k, ... } = source]. *)
Definition bound (source : string) (v : JsValue) (k : string)
    : Completion JsValue :=
  if nullish v then Throw (cannot_destructure source v k)
  else Normal (prop v k).

(** ** The platform *)

Record Request : Type := mkRequest {
  url : string;
  body : JsValue;
  headers : list (string * string)
}.

Inductive Level : Type := Info | Error.

Record LogEntry : Type := mkLog { level : Level; args : list JsValue }.

(** What one invocation leaves behind: the logger's entries and the
    requests [axios.post] was called with, both in order. *)
Record World : Type := mkWorld {
  logged : list LogEntry;
  requests : list Request
}.

Definition fresh : World := mkWorld [] [].

(** What the network does with a request: no response at all, or the
    final response. *)
Inductive Transport : Type :=
| NetworkError (message : string)
| HttpResponse (r : Response).

(** A [Date] by its time value in milliseconds; [None] is an invalid
    date. *)
Definition JsDate : Type := option Z.

Record Runtime : Type := mkRuntime {
  (** [TEAMS_WEBHOOK_URL.value()] *)
  TEAMS_WEBHOOK_URL : string;
  (** [new Date()]: the wall clock at handling *)
  Date_now : JsDate;
  (** [new Date(v)] *)
  Date_of : JsValue -> JsDate;
  (** [Date.prototype.toLocaleString] in the host's locale and zone *)
  toLocaleString : JsDate -> string;
  network : Request -> Transport;
  (** What every locale's formatting of a date has in common: it is some
      text ("Invalid Date" for an invalid date), and not the placeholder
      of the cards. *)
  toLocaleString_non_empty : forall d, toLocaleString d <> "";
  toLocaleString_not_placeholder : forall d, toLocaleString d <> "N/A"
}.

(** ** The handler monad *)

Definition Js (A : Type) : Type := World -> World * Completion A.

Definition ret {A} (a : A) : Js A := fun w => (w, Normal a).

Definition bind {A B} (c : Js A) (k : A -> Js B) : Js B :=
  fun w =>
    match c w with
    | (w', Normal a) => k a w'
    | (w', Throw e) => (w', Throw e)
    end.

Definition throw {A} (e : JsError) : Js A := fun w => (w, Throw e).

Definition lift {A} (c : Completion A) : Js A := fun w => (w, c).

(** [try { body } catch (error) { handler error }] *)
Definition try_catch {A} (body : Js A) (handler : JsError -> Js A) : Js A :=
  fun w =>
    match body w with
    | (w', Normal a) => (w', Normal a)
    | (w', Throw e) => handler e w'
    end.

Declare Scope js_scope.
Delimit Scope js_scope with js.
Notation "x <- c ;; k" := (bind c (fun x => k))
  (at level 61, c at next level, right associativity) : js_scope.
Notation "c ;; k" := (bind c (fun _ => k))
  (at level 61, right associativity) : js_scope.
Local Open Scope js_scope.

Definition read (v : JsValue) (k : string) : Js JsValue := lift (get v k).

Definition destructure (source : string) (v : JsValue) (k : string)
    : Js JsValue :=
  lift (bound source v k).

Module logger.
Definition info (a : list JsValue) : Js unit :=
  fun w => (mkWorld (logged w ++ [mkLog Info a]) (requests w), Normal tt).
Definition error (a : list JsValue) : Js unit :=
  fun w => (mkWorld (logged w ++ [mkLog Error a]) (requests w), Normal tt).
End logger.

Module axios.

(** The default [validateStatus]: the promise resolves for 2xx. *)
Definition validateStatus (st : Z) : bool := (200 <=? st) && (st <? 300).

Definition status_error (r : Response) : JsError :=
  AxiosError ("Request failed with status code "
              ++ Number.toString (num_of_Z (status r))) (Some r).

(** What the promise of a request settles to. *)
Definition settle (t : Transport) : Completion Response :=
  match t with
  | NetworkError m => Throw (AxiosError m None)
  | HttpResponse r =>
      if validateStatus (status r) then Normal r else Throw (status_error r)
  end.

(** [await axios.post(url, data, { headers })]: the call is recorded and
    settles as the network answers it. *)
Definition post (rt : Runtime) (u : string) (d : JsValue)
    (hs : list (string * string)) : Js Response :=
  fun w =>
    let req := mkRequest u d hs in
    (mkWorld (logged w) (requests w ++ [req]), settle (network rt req)).

End axios.

(** ** The refactored file: two handlers over shared helpers *)

Module Shared.

(** [buildTeamsCard({ emoji, title, subtitle, issueTitle, issueSubtitle,
    facts, consoleLink, accentColor })].  Destructuring the parameter
    throws on [undefined] and [null]; every other argument yields the
    card. *)
Definition buildTeamsCard (arg : JsValue) : Completion JsValue :=
  if nullish arg
  then Throw (cannot_destructure
                (match arg with JNull => "object null" | _ => "undefined" end)
                arg "emoji")
  else
    let emoji := prop arg "emoji" in
    let title := prop arg "title" in
    let subtitle := prop arg "subtitle" in
    let issueTitle := prop arg "issueTitle" in
    let issueSubtitle := prop arg "issueSubtitle" in
    let facts := prop arg "facts" in
    let consoleLink := prop arg "consoleLink" in
    let accentColor := prop arg "accentColor" in
    Normal (JObj [
      ("type", JStr "message");
      ("attachments", JArr [
        JObj [
          ("contentType", JStr "application/vnd.microsoft.card.adaptive");
          ("content", JObj [
            ("$schema", JStr "http://adaptivecards.io/schemas/adaptive-card.json");
            ("type", JStr "AdaptiveCard");
            ("version", JStr "1.4");
            ("body", JArr (
              [ JObj [
                  ("type", JStr "ColumnSet");
                  ("columns", JArr [
                    JObj [
                      ("type", JStr "Column");
                      ("width", JStr "auto");
                      ("items", JArr [
                        JObj [("type", JStr "TextBlock");
                              ("text", emoji);
                              ("size", JStr "ExtraLarge")]])];
                    JObj [
                      ("type", JStr "Column");
                      ("width", JStr "stretch");
                      ("items", JArr [
                        JObj [("type", JStr "TextBlock");
                              ("text", title);
                              ("weight", JStr "Bolder");
                              ("size", JStr "Large");
                              ("color", accentColor)];
                        JObj [("type", JStr "TextBlock");
                              ("text", subtitle);
                              ("spacing", JStr "None");
                              ("isSubtle", JBool true)]])]])];
                JObj [
                  ("type", JStr "TextBlock");
                  ("text", js_or issueTitle (JStr "Unknown issue"));
                  ("weight", JStr "Bolder");
                  ("size", JStr "Medium");
                  ("wrap", JBool true);
                  ("spacing", JStr "Medium")] ]
              ++ (if truthy issueSubtitle
                  then [ JObj [
                           ("type", JStr "TextBlock");
                           ("text", issueSubtitle);
                           ("isSubtle", JBool true);
                           ("wrap", JBool true);
                           ("spacing", JStr "None")] ]
                  else [])
              ++ [ JObj [("type", JStr "ColumnSet");
                         ("separator", JBool true);
                         ("spacing", JStr "Medium");
                         ("columns", JArr [])];
                   JObj [("type", JStr "FactSet"); ("facts", facts)] ]));
            ("actions", JArr [
              JObj [("type", JStr "Action.OpenUrl");
                    ("title", JStr "🔍 View in Firebase Console");
                    ("url", consoleLink)]])])]])]).

(** [sendToTeams(message)] *)
Definition sendToTeams (rt : Runtime) (message : JsValue) : Js unit :=
  try_catch
    (response <- axios.post rt (TEAMS_WEBHOOK_URL rt) message
                   [("Content-Type", "application/json")] ;;
     logger.info [JStr "✅ Teams notification sent. Status:";
                  JNum (num_of_Z (status response))])
    (fun error =>
       logger.error
         [JStr "❌ Failed to send Teams notification:";
          js_or (match error_response error with
                 | Some r => data r
                 | None => JUndefined
                 end)
                (JStr (error_message error))] ;;
       throw error).

(** *** Function 1: velocity alert *)
Module Velocity.

Definition firebaseConsoleLink (appId issue_id : JsValue) : JsValue :=
  JStr ("https://console.firebase.google.com/project/_/crashlytics/app/"
        ++ ToString appId ++ "/issues/" ++ ToString issue_id).

(** The [facts] array of the handler's call of [buildTeamsCard]. *)
Definition facts (rt : Runtime)
    (appId issue createTime crashCount crashPercentage firstVersion
       : JsValue) : JsValue :=
  JArr [
    JObj [("title", JStr "💥 Crash Count");
          ("value", if truthy crashCount
                    then JStr (ToString crashCount)
                    else JStr "N/A")];
    JObj [("title", JStr "📊 Sessions Affected");
          ("value", if truthy crashPercentage
                    then JStr (ToString crashPercentage ++ "%")
                    else JStr "N/A")];
    JObj [("title", JStr "📱 App Version");
          ("value", js_or (prop issue "appVersion") (JStr "N/A"))];
    JObj [("title", JStr "🏷️ First Seen In");
          ("value", js_or firstVersion (JStr "N/A"))];
    JObj [("title", JStr "🆔 Issue ID");
          ("value", js_or (prop issue "id") (JStr "N/A"))];
    JObj [("title", JStr "📦 App ID");
          ("value", js_or appId (JStr "N/A"))];
    JObj [("title", JStr "🕐 Alert Time");
          ("value", if truthy createTime
                    then JStr (toLocaleString rt (Date_of rt createTime))
                    else JStr (toLocaleString rt (Date_now rt)))]].

(** [const teamsMessage = buildTeamsCard({ ... })] *)
Definition teamsMessage (rt : Runtime)
    (appId issue createTime crashCount crashPercentage firstVersion
       : JsValue) : Completion JsValue :=
  buildTeamsCard (JObj [
    ("emoji", JStr "🔥");
    ("title", JStr "Crashlytics Velocity Alert");
    ("subtitle", JStr "A crash issue is rapidly impacting users");
    ("issueTitle", prop issue "title");
    ("issueSubtitle", prop issue "subtitle");
    ("facts", facts rt appId issue createTime crashCount crashPercentage
                firstVersion);
    ("consoleLink", firebaseConsoleLink appId (prop issue "id"));
    ("accentColor", JStr "Attention")]).

End Velocity.

(** The handler registered with [onVelocityAlertPublished].  The console
    link is the first expression to read a property of [issue], which
    throws when the payload has none; the card is built after it. *)
Definition sendVelocityAlertToTeams (rt : Runtime) (event : JsValue)
    : Js unit :=
  event_data <- read event "data" ;;
  payload <- read event_data "payload" ;;
  logger.info [JStr "🚨 Crashlytics velocity alert received"; payload] ;;
  appId <- read event "appId" ;;
  issue <- destructure "event.data.payload" payload "issue" ;;
  createTime <- destructure "event.data.payload" payload "createTime" ;;
  crashCount <- destructure "event.data.payload" payload "crashCount" ;;
  crashPercentage <- destructure "event.data.payload" payload "crashPercentage" ;;
  firstVersion <- destructure "event.data.payload" payload "firstVersion" ;;
  _ <- read issue "id" ;;
  teamsMessage <- lift (Velocity.teamsMessage rt appId issue createTime
                          crashCount crashPercentage firstVersion) ;;
  sendToTeams rt teamsMessage.

(** *** Function 2: new non-fatal issue *)
Module NonFatal.

Definition firebaseConsoleLink (appId issue_id : JsValue) : JsValue :=
  JStr ("https://console.firebase.google.com/project/_/crashlytics/app/"
        ++ ToString appId ++ "/issues/" ++ ToString issue_id).

Definition facts (rt : Runtime) (appId issue createTime : JsValue)
    : JsValue :=
  JArr [
    JObj [("title", JStr "🆔 Issue ID");
          ("value", js_or (prop issue "id") (JStr "N/A"))];
    JObj [("title", JStr "📱 App Version");
          ("value", js_or (prop issue "appVersion") (JStr "N/A"))];
    JObj [("title", JStr "📦 App ID");
          ("value", js_or appId (JStr "N/A"))];
    JObj [("title", JStr "🕐 Detected At");
          ("value", if truthy createTime
                    then JStr (toLocaleString rt (Date_of rt createTime))
                    else JStr (toLocaleString rt (Date_now rt)))]].

Definition teamsMessage (rt : Runtime) (appId issue createTime : JsValue)
    : Completion JsValue :=
  buildTeamsCard (JObj [
    ("emoji", JStr "⚠️");
    ("title", JStr "New Non-Fatal Issue Detected");
    ("subtitle", JStr "Crashlytics found a new non-fatal error in your app");
    ("issueTitle", prop issue "title");
    ("issueSubtitle", prop issue "subtitle");
    ("facts", facts rt appId issue createTime);
    ("consoleLink", firebaseConsoleLink appId (prop issue "id"));
    ("accentColor", JStr "Warning")]).

End NonFatal.

(** The handler registered with [onNewNonfatalIssuePublished]. *)
Definition sendNonFatalIssueToTeams (rt : Runtime) (event : JsValue)
    : Js unit :=
  event_data <- read event "data" ;;
  payload <- read event_data "payload" ;;
  logger.info [JStr "⚠️ Crashlytics new non-fatal issue received"; payload] ;;
  appId <- read event "appId" ;;
  issue <- destructure "event.data.payload" payload "issue" ;;
  createTime <- destructure "event.data.payload" payload "createTime" ;;
  _ <- read issue "id" ;;
  teamsMessage <- lift (NonFatal.teamsMessage rt appId issue createTime) ;;
  sendToTeams rt teamsMessage.

End Shared.

(** ** The standalone velocity handler
    ([crashlytics_velocity_alert_teams.js]) *)

Module Standalone.

Definition firebaseConsoleLink (appId issue_id : JsValue) : JsValue :=
  JStr ("https://console.firebase.google.com/project/_/crashlytics/app/"
        ++ ToString appId ++ "/issues/" ++ ToString issue_id).

(** The [facts] array of the inline FactSet. *)
Definition facts (rt : Runtime)
    (appId issue createTime crashCount crashPercentage firstVersion
       : JsValue) : JsValue :=
  JArr [
    JObj [("title", JStr "💥 Crash Count");
          ("value", if truthy crashCount
                    then JStr (ToString crashCount)
                    else JStr "N/A")];
    JObj [("title", JStr "📊 Sessions Affected");
          ("value", if truthy crashPercentage
                    then JStr (ToString crashPercentage ++ "%")
                    else JStr "N/A")];
    JObj [("title", JStr "📱 App Version");
          ("value", js_or (prop issue "appVersion") (JStr "N/A"))];
    JObj [("title", JStr "🏷️ First Seen In");
          ("value", js_or firstVersion (JStr "N/A"))];
    JObj [("title", JStr "🆔 Issue ID");
          ("value", js_or (prop issue "id") (JStr "N/A"))];
    JObj [("title", JStr "📦 App ID");
          ("value", js_or appId (JStr "N/A"))];
    JObj [("title", JStr "🕐 Alert Time");
          ("value", if truthy createTime
                    then JStr (toLocaleString rt (Date_of rt createTime))
                    else JStr (toLocaleString rt (Date_now rt)))]].

(** [const teamsMessage = { type: "message", ... }], the card built
    inline. *)
Definition teamsMessage (rt : Runtime)
    (appId issue createTime crashCount crashPercentage firstVersion
       : JsValue) : JsValue :=
  JObj [
    ("type", JStr "message");
    ("attachments", JArr [
      JObj [
        ("contentType", JStr "application/vnd.microsoft.card.adaptive");
        ("content", JObj [
          ("$schema", JStr "http://adaptivecards.io/schemas/adaptive-card.json");
          ("type", JStr "AdaptiveCard");
          ("version", JStr "1.4");
          ("body", JArr (
            [ JObj [
                ("type", JStr "ColumnSet");
                ("columns", JArr [
                  JObj [
                    ("type", JStr "Column");
                    ("width", JStr "auto");
                    ("items", JArr [
                      JObj [("type", JStr "TextBlock");
                            ("text", JStr "🔥");
                            ("size", JStr "ExtraLarge")]])];
                  JObj [
                    ("type", JStr "Column");
                    ("width", JStr "stretch");
                    ("items", JArr [
                      JObj [("type", JStr "TextBlock");
                            ("text", JStr "Crashlytics Velocity Alert");
                            ("weight", JStr "Bolder");
                            ("size", JStr "Large");
                            ("color", JStr "Attention")];
                      JObj [("type", JStr "TextBlock");
                            ("text", JStr "A crash issue is rapidly impacting users");
                            ("spacing", JStr "None");
                            ("isSubtle", JBool true)]])]])];
              JObj [
                ("type", JStr "TextBlock");
                ("text", js_or (prop issue "title") (JStr "Unknown issue"));
                ("weight", JStr "Bolder");
                ("size", JStr "Medium");
                ("wrap", JBool true);
                ("spacing", JStr "Medium")] ]
            ++ (if truthy (prop issue "subtitle")
                then [ JObj [
                         ("type", JStr "TextBlock");
                         ("text", prop issue "subtitle");
                         ("isSubtle", JBool true);
                         ("wrap", JBool true);
                         ("spacing", JStr "None")] ]
                else [])
            ++ [ JObj [("type", JStr "ColumnSet");
                       ("separator", JBool true);
                       ("spacing", JStr "Medium");
                       ("columns", JArr [])];
                 JObj [
                   ("type", JStr "FactSet");
                   ("facts", facts rt appId issue createTime crashCount
                               crashPercentage firstVersion)] ]));
          ("actions", JArr [
            JObj [("type", JStr "Action.OpenUrl");
                  ("title", JStr "🔍 View in Firebase Console");
                  ("url", firebaseConsoleLink appId (prop issue "id"));
                  ("style", JStr "destructive")]])])]])].

Definition sendVelocityAlertToTeams (rt : Runtime) (event : JsValue)
    : Js unit :=
  event_data <- read event "data" ;;
  payload <- read event_data "payload" ;;
  logger.info [JStr "🚨 Crashlytics velocity alert received"; payload] ;;
  appId <- read event "appId" ;;
  issue <- destructure "event.data.payload" payload "issue" ;;
  createTime <- destructure "event.data.payload" payload "createTime" ;;
  crashCount <- destructure "event.data.payload" payload "crashCount" ;;
  crashPercentage <- destructure "event.data.payload" payload "crashPercentage" ;;
  firstVersion <- destructure "event.data.payload" payload "firstVersion" ;;
  _ <- read issue "id" ;;
  let teamsMessage := teamsMessage rt appId issue createTime crashCount
                        crashPercentage firstVersion in
  try_catch
    (response <- axios.post rt (TEAMS_WEBHOOK_URL rt) teamsMessage
                   [("Content-Type", "application/json")] ;;
     logger.info [JStr "✅ Teams notification sent successfully. Status:";
                  JNum (num_of_Z (status response))])
    (fun error =>
       logger.error
         [JStr "❌ Failed to send Teams notification:";
          js_or (match error_response error with
                 | Some r => data r
                 | None => JUndefined
                 end)
                (JStr (error_message error))] ;;
       throw error).

End Standalone.

(** ** Observing an invocation *)

(** The fields a handler reads from its event. *)
Definition event_appId (event : JsValue) : JsValue := prop event "appId".
Definition event_payload (event : JsValue) : JsValue :=
  prop (prop event "data") "payload".
Definition event_issue (event : JsValue) : JsValue :=
  prop (event_payload event) "issue".
Definition payload_field (event : JsValue) (k : string) : JsValue :=
  prop (event_payload event) k.
Definition issue_field (event : JsValue) (k : string) : JsValue :=
  prop (event_issue event) k.

(** The bodies of the requests an invocation issues from a fresh world. *)
Definition posted (h : Js unit) : list JsValue :=
  map body (requests (fst (h fresh))).

Definition outcome (h : Js unit) : Completion unit := snd (h fresh).

(** Reading a Document. *)
Definition elements (v : JsValue) : list JsValue :=
  match v with
  | JArr items => items
  | _ => []
  end.

Definition is_str (s : string) (v : JsValue) : bool :=
  match v with
  | JStr s' => String.eqb s' s
  | _ => false
  end.

Definition is_true (v : JsValue) : bool :=
  match v with
  | JBool b => b
  | _ => false
  end.

Definition has_type (t : string) (block : JsValue) : bool :=
  is_str t (prop block "type").

Definition card_content (doc : JsValue) : JsValue :=
  prop (nth 0 (elements (prop doc "attachments")) JUndefined) "content".

Definition card_body (doc : JsValue) : list JsValue :=
  elements (prop (card_content doc) "body").

Definition card_actions (doc : JsValue) : list JsValue :=
  elements (prop (card_content doc) "actions").

(** The entries of the Document's FactSet blocks, in order. *)
Definition card_facts (doc : JsValue) : list JsValue :=
  flat_map (fun b => elements (prop b "facts"))
           (filter (has_type "FactSet") (card_body doc)).

Definition fact_title (f : JsValue) : JsValue := prop f "title".
Definition fact_value (f : JsValue) : JsValue := prop f "value".

(** The world once a handler has logged the receipt of its payload. *)
Definition received (headline : string) (event : JsValue) (w : World) : World :=
  mkWorld (logged w ++ [mkLog Info [JStr headline; event_payload event]])
          (requests w).

(** The try/catch around [axios.post], which [sendToTeams] and the
    standalone handler share up to the text of the success entry. *)
Definition deliver (rt : Runtime) (sent : string) (message : JsValue) : Js unit :=
  try_catch
    (response <- axios.post rt (TEAMS_WEBHOOK_URL rt) message
                   [("Content-Type", "application/json")] ;;
     logger.info [JStr sent; JNum (num_of_Z (status response))])
    (fun error =>
       logger.error
         [JStr "❌ Failed to send Teams notification:";
          js_or (match error_response error with
                 | Some r => data r
                 | None => JUndefined
                 end)
                (JStr (error_message error))] ;;
       throw error).

(** The request both delivery blocks issue for a message. *)
Definition webhook_request (rt : Runtime) (message : JsValue) : Request :=
  mkRequest (TEAMS_WEBHOOK_URL rt) message
            [("Content-Type", "application/json")].

(** What the catch block logs for an error:
    [error.response?.data || error.message]. *)
Definition failure_detail (e : JsError) : JsValue :=
  js_or (match error_response e with
         | Some r => data r
         | None => JUndefined
         end)
        (JStr (error_message e)).

(** ** Sample platform and events *)

Module Sample.

(** A clock stopped at 2023-11-14T22:13:20Z, numeric timestamps taken as
    milliseconds, and a formatter that prints the time value. *)
Definition runtime (answer : Transport) : Runtime :=
  mkRuntime
    "https://example.webhook.office.com/webhookb2/alerts"
    (Some 1700000000000)
    (fun v => match v with
              | JNum n => Some (unscaled n / 10 ^ Z.of_nat (scale n))
              | _ => None
              end)
    (fun d => match d with
              | Some t => "ms " ++ Number.toString (num_of_Z t)
              | None => "Invalid Date"
              end)
    (fun _ => answer)
    (fun d => ltac:(destruct d; discriminate))
    (fun d => ltac:(destruct d; discriminate)).

Definition ok : Transport := HttpResponse (mkResponse 200 (JStr "1")).

Definition server_error : Transport :=
  HttpResponse (mkResponse 500 (JStr "Internal Server Error")).

Definition event (appId : JsValue) (issue payload_rest : list (string * JsValue))
    : JsValue :=
  JObj [("appId", appId);
        ("data", JObj [("payload", JObj (("issue", JObj issue) :: payload_rest))])].

(** The full velocity payload of the specification's scenario. *)
Definition velocity_full : JsValue :=
  event (JStr "app1")
    [("id", JStr "I1"); ("title", JStr "NPE"); ("subtitle", JStr "at Foo.bar");
     ("appVersion", JStr "2.1.0")]
    [("createTime", JNum (num_of_Z 1700000000123));
     ("crashCount", JNum (num_of_Z 42));
     ("crashPercentage", JNum (mkNum 35 1));
     ("firstVersion", JStr "2.0.9")].

(** A non-fatal payload with neither [appVersion] nor [createTime]. *)
Definition nonfatal_bare : JsValue :=
  event (JStr "app1") [("id", JStr "I1"); ("title", JStr "NPE")] [].

(** A velocity payload whose numeric fields are present and zero. *)
Definition velocity_zero : JsValue :=
  event (JStr "app1")
    [("id", JStr "I1"); ("title", JStr "NPE"); ("appVersion", JStr "2.1.0")]
    [("createTime", JNum (num_of_Z 0));
     ("crashCount", JNum (num_of_Z 0));
     ("crashPercentage", JNum (num_of_Z 0));
     ("firstVersion", JStr "2.0.9")].

End Sample.

(** The card each handler builds for an event. *)
Definition shared_velocity_card (rt : Runtime) (event : JsValue)
    : Completion JsValue :=
  Shared.Velocity.teamsMessage rt
    (event_appId event) (event_issue event)
    (payload_field event "createTime") (payload_field event "crashCount")
    (payload_field event "crashPercentage") (payload_field event "firstVersion").

Definition shared_nonfatal_card (rt : Runtime) (event : JsValue)
    : Completion JsValue :=
  Shared.NonFatal.teamsMessage rt
    (event_appId event) (event_issue event) (payload_field event "createTime").

Definition standalone_card (rt : Runtime) (event : JsValue) : JsValue :=
  Standalone.teamsMessage rt
    (event_appId event) (event_issue event)
    (payload_field event "createTime") (payload_field event "crashCount")
    (payload_field event "crashPercentage") (payload_field event "firstVersion").

(** The fixed order of the facts, per kind of alert. *)
Definition velocity_titles : list JsValue :=
  [JStr "💥 Crash Count"; JStr "📊 Sessions Affected"; JStr "📱 App Version";
   JStr "🏷️ First Seen In"; JStr "🆔 Issue ID"; JStr "📦 App ID";
   JStr "🕐 Alert Time"].

Definition nonfatal_titles : list JsValue :=
  [JStr "🆔 Issue ID"; JStr "📱 App Version"; JStr "📦 App ID";
   JStr "🕐 Detected At"].

Definition fact_titles (doc : JsValue) : list JsValue :=
  map fact_title (card_facts doc).

(** The deep link of the specification: plain substitution of the two
    identifiers. *)
Definition console_link (a i : string) : string :=
  "https://console.firebase.google.com/project/_/crashlytics/app/"
  ++ a ++ "/issues/" ++ i.

(** [doc] has a single action, an [Action.OpenUrl] button opening [u]. *)
Definition opens_url (u : string) (doc : JsValue) : Prop :=
  exists action,
    card_actions doc = [action] /\
    prop action "type" = JStr "Action.OpenUrl" /\
    prop action "url" = JStr u.

(** The fixed wire envelope: a "message" with one adaptive-card attachment
    whose content is an AdaptiveCard of version "1.4", around some body and
    some actions. *)
Definition envelope (blocks actions : list JsValue) : JsValue :=
  JObj [
    ("type", JStr "message");
    ("attachments", JArr [
      JObj [
        ("contentType", JStr "application/vnd.microsoft.card.adaptive");
        ("content", JObj [
          ("$schema", JStr "http://adaptivecards.io/schemas/adaptive-card.json");
          ("type", JStr "AdaptiveCard");
          ("version", JStr "1.4");
          ("body", JArr blocks);
          ("actions", JArr actions)])]])].

Definition has_envelope (doc : JsValue) : Prop :=
  prop doc "type" = JStr "message" /\
  (exists attachment,
     prop doc "attachments" = JArr [attachment] /\
     prop attachment "contentType"
       = JStr "application/vnd.microsoft.card.adaptive" /\
     prop (prop attachment "content") "type" = JStr "AdaptiveCard" /\
     prop (prop attachment "content") "version" = JStr "1.4") /\
  exists blocks actions, doc = envelope blocks actions.

(** The two ways a delivery ends: the status logged and a normal return,
    or the failure logged and the error thrown again. *)
Definition delivered (sent : string) (r : Response) (req : Request) (w : World)
    : World * Completion unit :=
  (mkWorld (logged w ++ [mkLog Info [JStr sent; JNum (num_of_Z (status r))]])
           (requests w ++ [req]),
   Normal tt).

Definition failed (e : JsError) (req : Request) (w : World)
    : World * Completion unit :=
  (mkWorld (logged w ++ [mkLog Error
                           [JStr "❌ Failed to send Teams notification:";
                            failure_detail e]])
           (requests w ++ [req]),
   Throw e).

(** What a delivery does with the network's answer to its request. *)
Definition delivery_of (sent : string) (answer : Transport) (req : Request)
    (w : World) : World * Completion unit :=
  match answer with
  | HttpResponse r =>
      if axios.validateStatus (status r)
      then delivered sent r req w
      else failed (axios.status_error r) req w
  | NetworkError m => failed (AxiosError m None) req w
  end.

(** ** Reading the body, the envelope and the facts *)

(** The block the builder emits for a subtitle. *)
Definition subtitle_block (text : JsValue) : JsValue :=
  JObj [("type", JStr "TextBlock");
        ("text", text);
        ("isSubtle", JBool true);
        ("wrap", JBool true);
        ("spacing", JStr "None")].

(** A top-level subtle, wrapped TextBlock: the shape only the subtitle
    block has among the blocks of the body. *)
Definition is_subtitle_block (b : JsValue) : bool :=
  has_type "TextBlock" b && is_true (prop b "isSubtle") && is_true (prop b "wrap").

Definition is_header_block (b : JsValue) : bool :=
  has_type "ColumnSet" b && (length (elements (prop b "columns")) =? 2)%nat.

Definition is_title_block (b : JsValue) : bool :=
  has_type "TextBlock" b && negb (is_subtitle_block b) && truthy (prop b "text").

Definition is_separator_block (b : JsValue) : bool :=
  has_type "ColumnSet" b && is_true (prop b "separator").

Definition is_factset_block (b : JsValue) : bool := has_type "FactSet" b.

(** The CardSpec type of [issueSubtitle]: a string, or absent. *)
Definition optional_string (v : JsValue) : bool :=
  match v with
  | JUndefined | JNull | JStr _ => true
  | _ => false
  end.

Definition non_empty_string (v : JsValue) : bool :=
  match v with
  | JStr s => negb (String.eqb s "")
  | _ => false
  end.

(** The body of a card around an optional subtitle. *)
Definition body_around (issueSubtitle : JsValue) (blocks : list JsValue) : Prop :=
  exists header title separator factset,
    is_header_block header = true /\
    is_title_block title = true /\
    is_separator_block separator = true /\
    is_factset_block factset = true /\
    blocks =
    ([header; title]
     ++ (if non_empty_string issueSubtitle
         then [subtitle_block issueSubtitle] else [])
     ++ [separator; factset])%list.

(** What each block of a card must carry, on top of its type: the fixed
    styling of the schema and a property for each variable part. *)
Definition has_prop (k : string) (v : JsValue) : bool :=
  match v with
  | JObj fields => existsb (fun kv => String.eqb k (fst kv)) fields
  | _ => false
  end.

Definition is_text_block (b : JsValue) : bool :=
  has_type "TextBlock" b && has_prop "text" b.

Definition header_ok (b : JsValue) : bool :=
  has_type "ColumnSet" b
  && match elements (prop b "columns") with
     | [narrow; wide] =>
         has_type "Column" narrow && is_str "auto" (prop narrow "width")
         && match elements (prop narrow "items") with
            | [emoji] =>
                is_text_block emoji && is_str "ExtraLarge" (prop emoji "size")
            | _ => false
            end
         && has_type "Column" wide && is_str "stretch" (prop wide "width")
         && match elements (prop wide "items") with
            | [headline; subheadline] =>
                is_text_block headline
                && is_str "Bolder" (prop headline "weight")
                && is_str "Large" (prop headline "size")
                && has_prop "color" headline
                && is_text_block subheadline
                && is_str "None" (prop subheadline "spacing")
                && is_true (prop subheadline "isSubtle")
            | _ => false
            end
     | _ => false
     end.

Definition title_ok (b : JsValue) : bool :=
  is_text_block b && truthy (prop b "text")
  && is_str "Bolder" (prop b "weight") && is_str "Medium" (prop b "size")
  && is_true (prop b "wrap") && is_str "Medium" (prop b "spacing").

Definition subtitle_ok (b : JsValue) : bool :=
  is_text_block b && truthy (prop b "text")
  && is_true (prop b "isSubtle") && is_true (prop b "wrap")
  && is_str "None" (prop b "spacing").

Definition separator_ok (b : JsValue) : bool :=
  has_type "ColumnSet" b && is_true (prop b "separator")
  && is_str "Medium" (prop b "spacing")
  && match prop b "columns" with
     | JArr [] => true
     | _ => false
     end.

Definition factset_ok (b : JsValue) : bool :=
  has_type "FactSet" b && has_prop "facts" b.

Definition action_ok (a : JsValue) : bool :=
  has_type "Action.OpenUrl" a && has_prop "url" a
  && is_str "🔍 View in Firebase Console" (prop a "title").

Definition well_formed_body (blocks : list JsValue) : bool :=
  match blocks with
  | [header; title; separator; factset] =>
      header_ok header && title_ok title
      && separator_ok separator && factset_ok factset
  | [header; title; subtitle; separator; factset] =>
      header_ok header && title_ok title && subtitle_ok subtitle
      && separator_ok separator && factset_ok factset
  | _ => false
  end.

(** The envelope with its schema, a body of the four or five blocks, each
    with its styling and its variable parts, and one [Action.OpenUrl]
    button with its title and url. *)
Definition well_formed (doc : JsValue) : bool :=
  is_str "message" (prop doc "type")
  && match elements (prop doc "attachments") with
     | [attachment] =>
         is_str "application/vnd.microsoft.card.adaptive"
                (prop attachment "contentType")
         && is_str "http://adaptivecards.io/schemas/adaptive-card.json"
                   (prop (prop attachment "content") "$schema")
         && has_type "AdaptiveCard" (prop attachment "content")
         && is_str "1.4" (prop (prop attachment "content") "version")
     | _ => false
     end
  && well_formed_body (card_body doc)
  && match card_actions doc with
     | [action] => action_ok action
     | _ => false
     end.

(** The text of the issue-title block, the second block of the body. *)
Definition issue_title_text (doc : JsValue) : JsValue :=
  prop (nth 1 (card_body doc) JUndefined) "text".

(** ** The Document as the specification describes it

    The Document of the card builder, block by block, in the order and
    with the styling of the specification, under the wire names of the
    Adaptive Card schema. *)
Module Described.

Definition text_block (text : JsValue) (styling : list (string * JsValue))
    : JsValue :=
  JObj (("type", JStr "TextBlock") :: ("text", text) :: styling).

Definition column (width : string) (items : list JsValue) : JsValue :=
  JObj [("type", JStr "Column"); ("width", JStr width); ("items", JArr items)].

(** 1. Two columns: the emoji at extra-large size; the headline, bold,
    large and in the accent colour, above the subtle subheadline. *)
Definition header (emoji headline subheadline accentColor : JsValue) : JsValue :=
  JObj [("type", JStr "ColumnSet");
        ("columns", JArr [
           column "auto" [text_block emoji [("size", JStr "ExtraLarge")]];
           column "stretch"
             [text_block headline [("weight", JStr "Bolder");
                                   ("size", JStr "Large");
                                   ("color", accentColor)];
              text_block subheadline [("spacing", JStr "None");
                                      ("isSubtle", JBool true)]]])].

(** 2. The issue title, bold, medium and wrapped; "Unknown issue" in the
    place of an absent one. *)
Definition issue_title (issueTitle : JsValue) : JsValue :=
  text_block (if truthy issueTitle then issueTitle else JStr "Unknown issue")
    [("weight", JStr "Bolder"); ("size", JStr "Medium");
     ("wrap", JBool true); ("spacing", JStr "Medium")].

(** 3. The issue subtitle, subtle and wrapped, only if there is one. *)
Definition issue_subtitle (issueSubtitle : JsValue) : list JsValue :=
  if truthy issueSubtitle
  then [text_block issueSubtitle [("isSubtle", JBool true);
                                  ("wrap", JBool true);
                                  ("spacing", JStr "None")]]
  else [].

(** 4. The separator. *)
Definition separator : JsValue :=
  JObj [("type", JStr "ColumnSet"); ("separator", JBool true);
        ("spacing", JStr "Medium"); ("columns", JArr [])].

(** 5. The facts, as given. *)
Definition fact_set (facts : JsValue) : JsValue :=
  JObj [("type", JStr "FactSet"); ("facts", facts)].

(** The one button, opening the console link. *)
Definition view_in_console (consoleLink : JsValue) : JsValue :=
  JObj [("type", JStr "Action.OpenUrl");
        ("title", JStr "🔍 View in Firebase Console");
        ("url", consoleLink)].

Definition card
    (emoji headline subheadline issueTitle issueSubtitle facts consoleLink
       accentColor : JsValue) : JsValue :=
  envelope
    ([header emoji headline subheadline accentColor; issue_title issueTitle]
     ++ issue_subtitle issueSubtitle
     ++ [separator; fact_set facts])
    [view_in_console consoleLink].

End Described.

(** The eight properties the builder destructures. *)
Definition card_parameters : list string :=
  ["emoji"; "title"; "subtitle"; "issueTitle"; "issueSubtitle"; "facts";
   "consoleLink"; "accentColor"].

(** ** The two velocity handlers compared *)

Fixpoint update_field (k : string) (f : JsValue -> JsValue)
    (fields : list (string * JsValue)) : list (string * JsValue) :=
  match fields with
  | [] => []
  | (k', v) :: rest =>
      if String.eqb k k' then (k', f v) :: rest
      else (k', v) :: update_field k f rest
  end.

Definition on_prop (k : string) (f : JsValue -> JsValue) (v : JsValue) : JsValue :=
  match v with
  | JObj fields => JObj (update_field k f fields)
  | _ => v
  end.

Definition on_first (f : JsValue -> JsValue) (v : JsValue) : JsValue :=
  match v with
  | JArr (x :: rest) => JArr (f x :: rest)
  | _ => v
  end.

Definition append_field (k : string) (x : JsValue) (v : JsValue) : JsValue :=
  match v with
  | JObj fields => JObj (fields ++ [(k, x)])
  | _ => v
  end.

(** [doc] with one more field, [style], at the end of its first action;
    nothing else changes. *)
Definition with_action_style (style : JsValue) (doc : JsValue) : JsValue :=
  on_prop "attachments"
    (on_first (on_prop "content"
       (on_prop "actions" (on_first (append_field "style" style)))))
    doc.

Definition fact_values (doc : JsValue) : list JsValue :=
  map fact_value (card_facts doc).

(** The data model's types of the source fields: strings and numbers,
    each possibly absent.  A number is one a double holds exactly, as
    counts and percentages are. *)
Definition optional_number (v : JsValue) : bool :=
  match v with
  | JUndefined | JNull => true
  | JNum n => Number.exact n
  | _ => false
  end.

Definition nonfatal_typed (event : JsValue) : bool :=
  optional_string (event_appId event)
  && optional_string (issue_field event "id")
  && optional_string (issue_field event "appVersion").

Definition velocity_typed (event : JsValue) : bool :=
  nonfatal_typed event
  && optional_string (payload_field event "firstVersion")
  && optional_number (payload_field event "crashCount")
  && optional_number (payload_field event "crashPercentage").


(** The time of an alert: the payload's [createTime] when it is truthy,
    the clock otherwise. *)
Definition alert_time (rt : Runtime) (createTime : JsValue) : JsDate :=
  if truthy createTime then Date_of rt createTime else Date_now rt.

(** The value of the fact with the given title. *)
Definition fact_named (title : string) (doc : JsValue) : option JsValue :=
  option_map fact_value
    (find (fun f => is_str title (fact_title f)) (card_facts doc)).

(** ** The three handlers side by side *)

(** Each handler with the headline of its receipt entry. *)
Definition handlers : list (string * (Runtime -> JsValue -> Js unit)) :=
  [("🚨 Crashlytics velocity alert received", Shared.sendVelocityAlertToTeams);
   ("⚠️ Crashlytics new non-fatal issue received", Shared.sendNonFatalIssueToTeams);
   ("🚨 Crashlytics velocity alert received", Standalone.sendVelocityAlertToTeams)].

Definition event_data (event : JsValue) : JsValue := prop event "data".

(** The TypeError of an event that has [data] but no issue: raised by the
    destructuring of [event.data.payload] when there is no payload, by the
    read of [issue.id] when the payload has no issue. *)
Definition no_issue_error (event : JsValue) : JsError :=
  if nullish (event_payload event)
  then cannot_destructure "event.data.payload" (event_payload event) "issue"
  else cannot_read (event_issue event) "id".




(** The text blocks of the header, column by column, each with its
    colour. *)
Definition header_items (doc : JsValue) : list JsValue :=
  flat_map (fun column => elements (prop column "items"))
           (elements (prop (nth 0 (card_body doc) JUndefined) "columns")).

Definition header_texts (doc : JsValue) : list (JsValue * JsValue) :=
  map (fun item => (prop item "text", prop item "color")) (header_items doc).

(** * Properties *)

(** ** Number printing and the scenarios of the specification *)

Example ToString_42 : ToString (JNum (num_of_Z 42)) = "42".
Proof. reflexivity. Qed.

Example ToString_3_5 : ToString (JNum (mkNum 35 1)) = "3.5".
Proof. reflexivity. Qed.

Example ToString_0_05 : ToString (JNum (mkNum (-50) 3)) = "-0.05".
Proof. reflexivity. Qed.

Example ToString_1e21 : ToString (JNum (mkNum (10 ^ 21) 0)) = "1e+21".
Proof. reflexivity. Qed.

Example ToString_1e20 : ToString (JNum (mkNum (10 ^ 20) 0)) = "100000000000000000000".
Proof. reflexivity. Qed.

Example ToString_1e_7 : ToString (JNum (mkNum 1 7)) = "1e-7".
Proof. reflexivity. Qed.

Example ToString_1e_6 : ToString (JNum (mkNum 1 6)) = "0.000001".
Proof. reflexivity. Qed.

Example ToString_exponent_digits :
  ToString (JNum (mkNum (-12345) 30)) = "-1.2345e-26" /\
  ToString (JNum (mkNum 12345000 0)) = "12345000" /\
  ToString (JNum (mkNum (123 * 10 ^ 25) 0)) = "1.23e+27" /\
  ToString (JNum (mkNum 1234500 3)) = "1234.5".
Proof. repeat split. Qed.

(** ** Running the handlers on an event that carries an issue *)

Lemma issue_event_inv (event : JsValue) :
  nullish (event_issue event) = false ->
  exists ef df pf,
    event = JObj ef /\ lookup "data" ef = JObj df /\
    lookup "payload" df = JObj pf /\ nullish (lookup "issue" pf) = false.
Proof.
  unfold event_issue, event_payload. intros H.
  destruct event as [| | | | | |ef]; try discriminate H. simpl in H.
  destruct (lookup "data" ef) as [| | | | | |df] eqn:Hd; try discriminate H.
  simpl in H.
  destruct (lookup "payload" df) as [| | | | | |pf] eqn:Hp; try discriminate H.
  simpl in H. exists ef, df, pf. auto.
Qed.

Lemma get_present (v : JsValue) (k : string) :
  nullish v = false -> get v k = Normal (prop v k).
Proof. unfold get. now intros ->. Qed.

Lemma bind_read {B} (v : JsValue) (k : string) (f : JsValue -> Js B) (w : World) :
  nullish v = false -> bind (read v k) f w = f (prop v k) w.
Proof. intros H. unfold bind, read, lift. now rewrite get_present. Qed.

Lemma bind_destructure {B} (source : string) (v : JsValue) (k : string)
    (f : JsValue -> Js B) (w : World) :
  nullish v = false -> bind (destructure source v k) f w = f (prop v k) w.
Proof. intros H. unfold bind, destructure, lift, bound. now rewrite H. Qed.

Ltac open_event H :=
  let ef := fresh "ef" in
  let df := fresh "df" in
  let pf := fresh "pf" in
  let Hd := fresh "Hdata" in
  let Hp := fresh "Hpayload" in
  let Hi := fresh "Hissue" in
  destruct (issue_event_inv _ H) as (ef & df & pf & -> & Hd & Hp & Hi);
  unfold event_appId, payload_field, event_issue, received, event_payload;
  cbn [prop]; rewrite ?Hd; cbn [prop]; rewrite ?Hp; cbn [prop].

(** Past its reads, a handler whose event carries an issue is its card
    followed by the delivery. *)
Ltac run_handler :=
  match goal with
  | Hd : lookup "data" _ = JObj _, Hp : lookup "payload" _ = JObj _,
    Hi : nullish (lookup "issue" _) = false |- _ =>
      rewrite bind_read by reflexivity; cbn [prop]; rewrite Hd;
      rewrite bind_read by reflexivity; cbn [prop]; rewrite Hp;
      unfold bind at 1; cbn [logger.info];
      rewrite bind_read by reflexivity;
      rewrite !bind_destructure by reflexivity;
      rewrite bind_read by exact Hi;
      reflexivity
  end.

Lemma shared_velocity_run (rt : Runtime) (event : JsValue) (w : World) :
  nullish (event_issue event) = false ->
  Shared.sendVelocityAlertToTeams rt event w =
  bind (lift (Shared.Velocity.teamsMessage rt
                (event_appId event) (event_issue event)
                (payload_field event "createTime")
                (payload_field event "crashCount")
                (payload_field event "crashPercentage")
                (payload_field event "firstVersion")))
       (Shared.sendToTeams rt)
       (received "🚨 Crashlytics velocity alert received" event w).
Proof.
  intros H. open_event H. unfold Shared.sendVelocityAlertToTeams.
  run_handler.
Qed.

Lemma shared_nonfatal_run (rt : Runtime) (event : JsValue) (w : World) :
  nullish (event_issue event) = false ->
  Shared.sendNonFatalIssueToTeams rt event w =
  bind (lift (Shared.NonFatal.teamsMessage rt
                (event_appId event) (event_issue event)
                (payload_field event "createTime")))
       (Shared.sendToTeams rt)
       (received "⚠️ Crashlytics new non-fatal issue received" event w).
Proof.
  intros H. open_event H. unfold Shared.sendNonFatalIssueToTeams.
  run_handler.
Qed.

Lemma standalone_run (rt : Runtime) (event : JsValue) (w : World) :
  nullish (event_issue event) = false ->
  Standalone.sendVelocityAlertToTeams rt event w =
  deliver rt "✅ Teams notification sent successfully. Status:"
    (Standalone.teamsMessage rt
       (event_appId event) (event_issue event)
       (payload_field event "createTime")
       (payload_field event "crashCount")
       (payload_field event "crashPercentage")
       (payload_field event "firstVersion"))
    (received "🚨 Crashlytics velocity alert received" event w).
Proof.
  intros H. open_event H. unfold Standalone.sendVelocityAlertToTeams.
  run_handler.
Qed.

Lemma sendToTeams_deliver (rt : Runtime) (message : JsValue) :
  Shared.sendToTeams rt message =
  deliver rt "✅ Teams notification sent. Status:" message.
Proof. reflexivity. Qed.

Lemma deliver_settled (rt : Runtime) (sent : string) (message : JsValue)
    (w : World) :
  deliver rt sent message w =
  match axios.settle (network rt (webhook_request rt message)) with
  | Normal r =>
      (mkWorld (logged w ++ [mkLog Info [JStr sent; JNum (num_of_Z (status r))]])%list
               (requests w ++ [webhook_request rt message])%list,
       Normal tt)
  | Throw e =>
      (mkWorld (logged w ++ [mkLog Error
                               [JStr "❌ Failed to send Teams notification:";
                                failure_detail e]])%list
               (requests w ++ [webhook_request rt message])%list,
       Throw e)
  end.
Proof.
  unfold deliver, try_catch, bind, axios.post, webhook_request. cbn.
  destruct (axios.settle _); reflexivity.
Qed.

Lemma deliver_requests (rt : Runtime) (sent : string) (message : JsValue)
    (w : World) :
  requests (fst (deliver rt sent message w)) =
  (requests w ++ [webhook_request rt message])%list.
Proof.
  rewrite deliver_settled. destruct (axios.settle _); reflexivity.
Qed.

Lemma buildTeamsCard_object (fields : list (string * JsValue)) :
  exists doc, Shared.buildTeamsCard (JObj fields) = Normal doc.
Proof. eexists. reflexivity. Qed.

Example scenario_velocity_full :
  map (fun d => map (fun f => (fact_title f, fact_value f)) (card_facts d))
      (posted (Shared.sendVelocityAlertToTeams (Sample.runtime Sample.ok)
                 Sample.velocity_full))
  = [[(JStr "💥 Crash Count", JStr "42");
      (JStr "📊 Sessions Affected", JStr "3.5%");
      (JStr "📱 App Version", JStr "2.1.0");
      (JStr "🏷️ First Seen In", JStr "2.0.9");
      (JStr "🆔 Issue ID", JStr "I1");
      (JStr "📦 App ID", JStr "app1");
      (JStr "🕐 Alert Time", JStr "ms 1700000000123")]].
Proof. vm_compute. reflexivity. Qed.

Example scenario_nonfatal_bare :
  map (fun d => map (fun f => (fact_title f, fact_value f)) (card_facts d))
      (posted (Shared.sendNonFatalIssueToTeams (Sample.runtime Sample.ok)
                 Sample.nonfatal_bare))
  = [[(JStr "🆔 Issue ID", JStr "I1");
      (JStr "📱 App Version", JStr "N/A");
      (JStr "📦 App ID", JStr "app1");
      (JStr "🕐 Detected At", JStr "ms 1700000000000")]].
Proof. vm_compute. reflexivity. Qed.

Example scenario_http_500 :
  Shared.sendToTeams (Sample.runtime Sample.server_error) (JStr "card") fresh
  = (mkWorld [mkLog Error [JStr "❌ Failed to send Teams notification:";
                           JStr "Internal Server Error"]]
             [webhook_request (Sample.runtime Sample.server_error) (JStr "card")],
     Throw (AxiosError "Request failed with status code 500"
              (Some (mkResponse 500 (JStr "Internal Server Error"))))).
Proof. vm_compute. reflexivity. Qed.

Example scenario_http_200 :
  Shared.sendToTeams (Sample.runtime Sample.ok) (JStr "card") fresh
  = (mkWorld [mkLog Info [JStr "✅ Teams notification sent. Status:";
                          JNum (num_of_Z 200)]]
             [webhook_request (Sample.runtime Sample.ok) (JStr "card")],
     Normal tt).
Proof. vm_compute. reflexivity. Qed.

Lemma shared_velocity_delivers (rt : Runtime) (event : JsValue) (w : World) :
  nullish (event_issue event) = false ->
  exists doc,
    shared_velocity_card rt event = Normal doc /\
    Shared.sendVelocityAlertToTeams rt event w =
    deliver rt "✅ Teams notification sent. Status:" doc
      (received "🚨 Crashlytics velocity alert received" event w).
Proof.
  intros H. rewrite shared_velocity_run by exact H.
  eexists. split; reflexivity.
Qed.

Lemma shared_nonfatal_delivers (rt : Runtime) (event : JsValue) (w : World) :
  nullish (event_issue event) = false ->
  exists doc,
    shared_nonfatal_card rt event = Normal doc /\
    Shared.sendNonFatalIssueToTeams rt event w =
    deliver rt "✅ Teams notification sent. Status:" doc
      (received "⚠️ Crashlytics new non-fatal issue received" event w).
Proof.
  intros H. rewrite shared_nonfatal_run by exact H.
  eexists. split; reflexivity.
Qed.

Lemma posted_deliver (rt : Runtime) (sent headline : string)
    (doc event : JsValue) :
  map body (requests (fst (deliver rt sent doc (received headline event fresh))))
  = [doc].
Proof. rewrite deliver_requests. reflexivity. Qed.

Lemma posted_standalone (rt : Runtime) (event : JsValue) :
  nullish (event_issue event) = false ->
  posted (Standalone.sendVelocityAlertToTeams rt event)
  = [standalone_card rt event].
Proof.
  intros H. unfold posted. rewrite standalone_run by exact H.
  now rewrite posted_deliver.
Qed.

(** ** Order of the facts *)

Lemma facts_of_built_card (fields : list (string * JsValue)) (doc : JsValue) :
  Shared.buildTeamsCard (JObj fields) = Normal doc ->
  card_facts doc = elements (lookup "facts" fields).
Proof.
  intros H. injection H as <-.
  unfold card_facts, card_body, card_content. cbn.
  destruct (truthy (lookup "issueSubtitle" fields)); cbn;
    now rewrite app_nil_r.
Qed.

Lemma facts_of_standalone_card (rt : Runtime)
    (appId issue createTime crashCount crashPercentage firstVersion : JsValue) :
  card_facts (Standalone.teamsMessage rt appId issue createTime crashCount
                crashPercentage firstVersion)
  = elements (Standalone.facts rt appId issue createTime crashCount
                crashPercentage firstVersion).
Proof.
  unfold card_facts, card_body, card_content. cbn.
  destruct (truthy (prop issue "subtitle")); cbn; reflexivity.
Qed.

(** C3. For every event that carries an issue, the facts of the posted
    Document appear in the fixed order of the alert's kind: the seven
    velocity facts (both velocity handlers) or the four non-fatal facts,
    whatever the order of the payload's fields; none is reordered, added or
    dropped. *)
Theorem facts_in_fixed_order (rt : Runtime) (event : JsValue) :
  nullish (event_issue event) = false ->
  map fact_titles (posted (Shared.sendVelocityAlertToTeams rt event))
    = [velocity_titles] /\
  map fact_titles (posted (Standalone.sendVelocityAlertToTeams rt event))
    = [velocity_titles] /\
  map fact_titles (posted (Shared.sendNonFatalIssueToTeams rt event))
    = [nonfatal_titles].
Proof.
  intros H. repeat split.
  - destruct (shared_velocity_delivers rt event fresh H) as (doc & Hdoc & Hrun).
    unfold posted. rewrite Hrun, posted_deliver. cbn [map]. f_equal.
    unfold fact_titles. now rewrite (facts_of_built_card _ _ Hdoc).
  - rewrite posted_standalone by exact H. cbn [map]. f_equal.
    unfold fact_titles, standalone_card.
    now rewrite facts_of_standalone_card.
  - destruct (shared_nonfatal_delivers rt event fresh H) as (doc & Hdoc & Hrun).
    unfold posted. rewrite Hrun, posted_deliver. cbn [map]. f_equal.
    unfold fact_titles. now rewrite (facts_of_built_card _ _ Hdoc).
Qed.

Lemma facts_in_fixed_order_witness :
  map fact_titles
      (posted (Shared.sendVelocityAlertToTeams (Sample.runtime Sample.ok)
                 Sample.velocity_full))
    = [velocity_titles] /\
  map fact_titles
      (posted (Standalone.sendVelocityAlertToTeams (Sample.runtime Sample.ok)
                 Sample.velocity_full))
    = [velocity_titles] /\
  map fact_titles
      (posted (Shared.sendNonFatalIssueToTeams (Sample.runtime Sample.ok)
                 Sample.velocity_full))
    = [nonfatal_titles].
Proof.
  apply (facts_in_fixed_order (Sample.runtime Sample.ok) Sample.velocity_full).
  reflexivity.
Defined.

(** ** The console link *)

Lemma actions_of_built_card (fields : list (string * JsValue)) (doc : JsValue) :
  Shared.buildTeamsCard (JObj fields) = Normal doc ->
  card_actions doc =
  [JObj [("type", JStr "Action.OpenUrl");
         ("title", JStr "🔍 View in Firebase Console");
         ("url", lookup "consoleLink" fields)]].
Proof. intros H. injection H as <-. reflexivity. Qed.

(** C4. For an event whose application id is the string [a] and whose
    issue id is the string [i], each of the three handlers derives the
    console link as the fixed prefix, [a], "/issues/" and [i] concatenated,
    with no encoding of either identifier, and the posted Document's single
    action is an Action.OpenUrl button with that url. *)
Theorem console_link_is_plain_substitution
    (rt : Runtime) (event : JsValue) (a i : string) :
  event_appId event = JStr a ->
  issue_field event "id" = JStr i ->
  (Shared.Velocity.firebaseConsoleLink (JStr a) (JStr i) = JStr (console_link a i) /\
   Shared.NonFatal.firebaseConsoleLink (JStr a) (JStr i) = JStr (console_link a i) /\
   Standalone.firebaseConsoleLink (JStr a) (JStr i) = JStr (console_link a i)) /\
  (exists doc,
     posted (Shared.sendVelocityAlertToTeams rt event) = [doc] /\
     opens_url (console_link a i) doc) /\
  (exists doc,
     posted (Shared.sendNonFatalIssueToTeams rt event) = [doc] /\
     opens_url (console_link a i) doc) /\
  (exists doc,
     posted (Standalone.sendVelocityAlertToTeams rt event) = [doc] /\
     opens_url (console_link a i) doc).
Proof.
  intros Ha Hi.
  assert (H : nullish (event_issue event) = false).
  { unfold issue_field in Hi. destruct (event_issue event); try reflexivity;
      discriminate Hi. }
  split; [repeat split |]. repeat split.
  - destruct (shared_velocity_delivers rt event fresh H) as (doc & Hdoc & Hrun).
    exists doc. split.
    + unfold posted. now rewrite Hrun, posted_deliver.
    + eexists. split; [exact (actions_of_built_card _ _ Hdoc) |].
      cbn. unfold issue_field in Hi. rewrite Ha, Hi. now split.
  - destruct (shared_nonfatal_delivers rt event fresh H) as (doc & Hdoc & Hrun).
    exists doc. split.
    + unfold posted. now rewrite Hrun, posted_deliver.
    + eexists. split; [exact (actions_of_built_card _ _ Hdoc) |].
      cbn. unfold issue_field in Hi. rewrite Ha, Hi. now split.
  - eexists. split; [exact (posted_standalone rt event H) |].
    eexists. split; [reflexivity |].
    cbn. unfold issue_field in Hi. rewrite Ha, Hi. now split.
Qed.

Lemma console_link_is_plain_substitution_witness :
  event_appId Sample.velocity_full = JStr "app1" /\
  issue_field Sample.velocity_full "id" = JStr "I1" /\
  (exists doc,
     posted (Shared.sendVelocityAlertToTeams (Sample.runtime Sample.ok)
               Sample.velocity_full) = [doc] /\
     opens_url
       "https://console.firebase.google.com/project/_/crashlytics/app/app1/issues/I1"
       doc).
Proof.
  split; [reflexivity | split; [reflexivity |]].
  apply (console_link_is_plain_substitution (Sample.runtime Sample.ok)
           Sample.velocity_full "app1" "I1"); reflexivity.
Defined.

(** ** The wire envelope and the single POST *)

Lemma envelope_has_envelope (blocks actions : list JsValue) :
  has_envelope (envelope blocks actions).
Proof.
  split; [reflexivity |]. split.
  - eexists. repeat split.
  - now exists blocks, actions.
Qed.

Lemma built_card_envelope (fields : list (string * JsValue)) :
  exists doc, Shared.buildTeamsCard (JObj fields) = Normal doc /\ has_envelope doc.
Proof.
  eexists. split; [reflexivity |]. apply envelope_has_envelope.
Qed.

Lemma built_card_has_envelope (fields : list (string * JsValue)) (doc : JsValue) :
  Shared.buildTeamsCard (JObj fields) = Normal doc -> has_envelope doc.
Proof. intros H. injection H as <-. apply envelope_has_envelope. Qed.

Lemma standalone_card_envelope (rt : Runtime)
    (appId issue createTime crashCount crashPercentage firstVersion : JsValue) :
  has_envelope (Standalone.teamsMessage rt appId issue createTime crashCount
                  crashPercentage firstVersion).
Proof. apply envelope_has_envelope. Qed.

(** C7. Every Document the builder returns, and every Document the
    standalone handler builds inline, has the fixed envelope: type
    "message", exactly one attachment of content type
    "application/vnd.microsoft.card.adaptive", content of type
    "AdaptiveCard" and version "1.4".  [sendToTeams] issues exactly one
    request, the POST of its message to the webhook with the header
    Content-Type: application/json, and so does each handler whose event
    carries an issue, for the Document it built. *)
Theorem fixed_envelope_single_post (rt : Runtime) :
  (forall fields,
     exists doc,
       Shared.buildTeamsCard (JObj fields) = Normal doc /\ has_envelope doc) /\
  (forall appId issue createTime crashCount crashPercentage firstVersion,
     has_envelope (Standalone.teamsMessage rt appId issue createTime crashCount
                     crashPercentage firstVersion)) /\
  (forall message w,
     requests (fst (Shared.sendToTeams rt message w)) =
     (requests w ++ [mkRequest (TEAMS_WEBHOOK_URL rt) message
                       [("Content-Type", "application/json")]])%list) /\
  (forall event,
     nullish (event_issue event) = false ->
     (exists doc,
        has_envelope doc /\
        requests (fst (Shared.sendVelocityAlertToTeams rt event fresh)) =
        [mkRequest (TEAMS_WEBHOOK_URL rt) doc
           [("Content-Type", "application/json")]]) /\
     (exists doc,
        has_envelope doc /\
        requests (fst (Shared.sendNonFatalIssueToTeams rt event fresh)) =
        [mkRequest (TEAMS_WEBHOOK_URL rt) doc
           [("Content-Type", "application/json")]]) /\
     (exists doc,
        has_envelope doc /\
        requests (fst (Standalone.sendVelocityAlertToTeams rt event fresh)) =
        [mkRequest (TEAMS_WEBHOOK_URL rt) doc
           [("Content-Type", "application/json")]])).
Proof.
  split; [exact built_card_envelope |].
  split; [exact (standalone_card_envelope rt) |].
  split.
  { intros message w. rewrite sendToTeams_deliver. apply deliver_requests. }
  intros event H. repeat split.
  - destruct (shared_velocity_delivers rt event fresh H) as (doc & Hdoc & Hrun).
    exists doc. split; [exact (built_card_has_envelope _ _ Hdoc) |].
    rewrite Hrun. apply deliver_requests.
  - destruct (shared_nonfatal_delivers rt event fresh H) as (doc & Hdoc & Hrun).
    exists doc. split; [exact (built_card_has_envelope _ _ Hdoc) |].
    rewrite Hrun. apply deliver_requests.
  - exists (standalone_card rt event).
    split; [apply standalone_card_envelope |].
    rewrite standalone_run by exact H. apply deliver_requests.
Qed.

Lemma fixed_envelope_single_post_witness :
  nullish (event_issue Sample.velocity_full) = false /\
  exists doc,
    has_envelope doc /\
    requests (fst (Standalone.sendVelocityAlertToTeams
                     (Sample.runtime Sample.ok) Sample.velocity_full fresh)) =
    [mkRequest "https://example.webhook.office.com/webhookb2/alerts" doc
       [("Content-Type", "application/json")]].
Proof.
  split; [reflexivity |].
  apply (fixed_envelope_single_post (Sample.runtime Sample.ok)).
  reflexivity.
Defined.

(** ** Delivery *)

Lemma deliver_delivery_of (rt : Runtime) (sent : string) (message : JsValue)
    (w : World) :
  deliver rt sent message w =
  delivery_of sent (network rt (webhook_request rt message))
    (webhook_request rt message) w.
Proof.
  rewrite deliver_settled. unfold delivery_of, axios.settle.
  destruct (network rt _) as [m | r]; [reflexivity |].
  destruct (axios.validateStatus (status r)); reflexivity.
Qed.

Lemma validateStatus_range (st : Z) :
  axios.validateStatus st = true <-> 200 <= st < 300.
Proof. unfold axios.validateStatus. lia. Qed.

Lemma delivery_of_normal (sent : string) (answer : Transport) (req : Request)
    (w : World) :
  snd (delivery_of sent answer req w) = Normal tt <->
  exists r, answer = HttpResponse r /\ 200 <= status r < 300.
Proof.
  unfold delivery_of. destruct answer as [m | r].
  - split; [discriminate |]. intros (r & Hr & _). discriminate Hr.
  - destruct (axios.validateStatus (status r)) eqn:Hv; cbn.
    + split; [| reflexivity]. intros _. exists r.
      split; [reflexivity | now apply validateStatus_range].
    + split; [discriminate |]. intros (r' & Hr & Hrange).
      injection Hr as <-. apply validateStatus_range in Hrange. congruence.
Qed.

(** C5. [sendToTeams], and the try/catch of the standalone handler on an
    event that carries an issue, return normally exactly when the POST is
    answered with a status in the success range, and then log that status;
    on a transport error or any other status they log the response body
    when the error has one that is truthy, else the error's message, and
    throw the very error the POST raised. *)
Theorem delivery_failure_propagates (rt : Runtime) :
  (forall message w,
     Shared.sendToTeams rt message w =
     delivery_of "✅ Teams notification sent. Status:"
       (network rt (webhook_request rt message))
       (webhook_request rt message) w) /\
  (forall event w,
     nullish (event_issue event) = false ->
     Standalone.sendVelocityAlertToTeams rt event w =
     delivery_of "✅ Teams notification sent successfully. Status:"
       (network rt (webhook_request rt (standalone_card rt event)))
       (webhook_request rt (standalone_card rt event))
       (received "🚨 Crashlytics velocity alert received" event w)) /\
  (forall sent answer req w,
     snd (delivery_of sent answer req w) = Normal tt <->
     exists r, answer = HttpResponse r /\ 200 <= status r < 300) /\
  (forall sent answer req w e,
     snd (delivery_of sent answer req w) = Throw e ->
     axios.settle answer = Throw e /\
     logged (fst (delivery_of sent answer req w)) =
     (logged w ++ [mkLog Error [JStr "❌ Failed to send Teams notification:";
                                match error_response e with
                                | Some r =>
                                    if truthy (data r) then data r
                                    else JStr (error_message e)
                                | None => JStr (error_message e)
                                end]])%list).
Proof.
  split; [| split; [| split]].
  - intros message w. rewrite sendToTeams_deliver. apply deliver_delivery_of.
  - intros event w H. rewrite standalone_run by exact H.
    apply deliver_delivery_of.
  - exact delivery_of_normal.
  - intros sent answer req w e. unfold delivery_of, axios.settle.
    destruct answer as [m | r].
    + cbn. intros He. injection He as <-. split; reflexivity.
    + destruct (axios.validateStatus (status r)); cbn; [discriminate |].
      intros He. injection He as <-. split; reflexivity.
Qed.

Lemma delivery_failure_propagates_witness :
  nullish (event_issue Sample.velocity_full) = false /\
  outcome (Standalone.sendVelocityAlertToTeams
             (Sample.runtime Sample.server_error) Sample.velocity_full)
  = Throw (AxiosError "Request failed with status code 500"
             (Some (mkResponse 500 (JStr "Internal Server Error")))).
Proof.
  split; [reflexivity |]. unfold outcome.
  rewrite (proj1 (proj2 (delivery_failure_propagates
                           (Sample.runtime Sample.server_error)))
             Sample.velocity_full fresh eq_refl).
  reflexivity.
Defined.

(** ** The optional subtitle block *)

Lemma truthy_optional_string (v : JsValue) :
  optional_string v = true -> truthy v = non_empty_string v.
Proof. destruct v; try discriminate; reflexivity. Qed.

Lemma non_empty_string_iff (v : JsValue) :
  non_empty_string v = true <-> exists s, v = JStr s /\ s <> "".
Proof.
  destruct v as [| | | |s| |]; cbn;
    try (split; [discriminate | intros (s' & Hs & _); discriminate Hs]).
  rewrite negb_true_iff, String.eqb_neq. split.
  - intros Hs. now exists s.
  - intros (s' & Hs & Hne). now injection Hs as ->.
Qed.

Lemma truthy_js_or_default (v : JsValue) (s : string) :
  s <> "" -> truthy (js_or v (JStr s)) = true.
Proof.
  intros Hs. unfold js_or. destruct (truthy v) eqn:Hv; [exact Hv |].
  cbn. now rewrite negb_true_iff, String.eqb_neq.
Qed.

Lemma body_of_built_card (fields : list (string * JsValue)) (doc : JsValue) :
  Shared.buildTeamsCard (JObj fields) = Normal doc ->
  optional_string (lookup "issueSubtitle" fields) = true ->
  body_around (lookup "issueSubtitle" fields) (card_body doc).
Proof.
  intros H Hty. injection H as <-. unfold card_body, card_content. cbn.
  rewrite (truthy_optional_string _ Hty).
  do 4 eexists. repeat split; try reflexivity.
  unfold is_title_block. cbn.
  now rewrite truthy_js_or_default.
Qed.

Lemma body_of_standalone_card (rt : Runtime)
    (appId issue createTime crashCount crashPercentage firstVersion : JsValue) :
  optional_string (prop issue "subtitle") = true ->
  body_around (prop issue "subtitle")
    (card_body (Standalone.teamsMessage rt appId issue createTime crashCount
                  crashPercentage firstVersion)).
Proof.
  intros Hty. unfold card_body, card_content. cbn.
  rewrite (truthy_optional_string _ Hty).
  do 4 eexists. repeat split; try reflexivity.
  unfold is_title_block. cbn.
  now rewrite truthy_js_or_default.
Qed.

Lemma body_around_subtitle (sub : JsValue) (blocks : list JsValue) :
  body_around sub blocks ->
  existsb is_subtitle_block blocks = non_empty_string sub.
Proof.
  intros (h & t & s & f & Hh & Ht & Hs & Hf & ->).
  unfold is_header_block, is_title_block, is_separator_block,
    is_factset_block in *.
  apply andb_prop in Hh as [Hh _]. apply andb_prop in Ht as [Ht _].
  apply andb_prop in Ht as [_ Ht]. apply andb_prop in Hs as [Hs _].
  apply negb_true_iff in Ht.
  assert (Hnot : forall b t1 t2,
             has_type t1 b = true -> String.eqb t1 t2 = false ->
             has_type t2 b = false).
  { intros b t1 t2. unfold has_type, is_str.
    destruct (prop b "type") as [| | | |x| |]; try discriminate.
    intros Hx%String.eqb_eq Hd. subst x. exact Hd. }
  assert (Hsub : forall b t1,
             has_type t1 b = true -> String.eqb t1 "TextBlock" = false ->
             is_subtitle_block b = false).
  { intros b t1 Hb Hd. unfold is_subtitle_block.
    now rewrite (Hnot b t1 "TextBlock" Hb Hd). }
  destruct (non_empty_string sub); cbn [app existsb];
    rewrite (Hsub h "ColumnSet" Hh eq_refl), Ht,
      (Hsub s "ColumnSet" Hs eq_refl), (Hsub f "FactSet" Hf eq_refl);
    reflexivity.
Qed.

(** C2. For every input of the builder whose [issueSubtitle] is a string
    or absent, the subtitle TextBlock is in the Document's body if and only
    if [issueSubtitle] is a non-empty string.  The body is the header
    ColumnSet, the issue-title block, the subtitle block when there is one
    (nothing in its place otherwise), the separator and the FactSet, in
    this order.  The standalone handler's inline body does the same with
    [issue.subtitle]. *)
Theorem subtitle_block_iff_non_empty
    (fields : list (string * JsValue)) (doc : JsValue) :
  Shared.buildTeamsCard (JObj fields) = Normal doc ->
  optional_string (lookup "issueSubtitle" fields) = true ->
  (existsb is_subtitle_block (card_body doc) = true <->
   exists s, lookup "issueSubtitle" fields = JStr s /\ s <> "") /\
  body_around (lookup "issueSubtitle" fields) (card_body doc) /\
  (forall rt appId issue createTime crashCount crashPercentage firstVersion,
     optional_string (prop issue "subtitle") = true ->
     let inline := card_body (Standalone.teamsMessage rt appId issue createTime
                                crashCount crashPercentage firstVersion) in
     (existsb is_subtitle_block inline = true <->
      exists s, prop issue "subtitle" = JStr s /\ s <> "") /\
     body_around (prop issue "subtitle") inline).
Proof.
  intros Hdoc Hty.
  pose proof (body_of_built_card _ _ Hdoc Hty) as Hbody.
  split; [| split; [exact Hbody |]].
  - rewrite (body_around_subtitle _ _ Hbody). apply non_empty_string_iff.
  - intros rt appId issue createTime crashCount crashPercentage firstVersion
      Hty' inline.
    pose proof (body_of_standalone_card rt appId issue createTime crashCount
                  crashPercentage firstVersion Hty') as Hbody'.
    split; [| exact Hbody'].
    subst inline. rewrite (body_around_subtitle _ _ Hbody').
    apply non_empty_string_iff.
Qed.

Lemma subtitle_block_iff_non_empty_witness :
  exists doc,
    Shared.buildTeamsCard
      (JObj [("issueTitle", JStr "NPE"); ("issueSubtitle", JStr "at Foo.bar")])
    = Normal doc /\
    existsb is_subtitle_block (card_body doc) = true.
Proof.
  eexists. split; [reflexivity |].
  apply (subtitle_block_iff_non_empty
           [("issueTitle", JStr "NPE"); ("issueSubtitle", JStr "at Foo.bar")]
           _ eq_refl eq_refl).
  exists "at Foo.bar". split; [reflexivity | discriminate].
Defined.

(** ** Totality of the builder *)

Lemma built_card_well_formed (fields : list (string * JsValue)) (doc : JsValue) :
  Shared.buildTeamsCard (JObj fields) = Normal doc -> well_formed doc = true.
Proof.
  intros H. injection H as <-.
  unfold well_formed, card_body, card_actions, card_content. cbn.
  destruct (truthy (lookup "issueSubtitle" fields)) eqn:Hs; cbn;
    unfold title_ok, subtitle_ok; cbn;
    rewrite ?Hs, truthy_js_or_default by discriminate; reflexivity.
Qed.

Lemma standalone_card_well_formed (rt : Runtime)
    (appId issue createTime crashCount crashPercentage firstVersion : JsValue) :
  well_formed (Standalone.teamsMessage rt appId issue createTime crashCount
                 crashPercentage firstVersion) = true.
Proof.
  unfold well_formed, card_body, card_actions, card_content. cbn.
  destruct (truthy (prop issue "subtitle")) eqn:Hs; cbn;
    unfold title_ok, subtitle_ok; cbn;
    rewrite ?Hs, truthy_js_or_default by discriminate; reflexivity.
Qed.

Lemma title_of_built_card (fields : list (string * JsValue)) (doc : JsValue) :
  Shared.buildTeamsCard (JObj fields) = Normal doc ->
  issue_title_text doc = js_or (lookup "issueTitle" fields) (JStr "Unknown issue").
Proof.
  intros H. injection H as <-.
  unfold issue_title_text, card_body, card_content. cbn.
  destruct (truthy (lookup "issueSubtitle" fields)); reflexivity.
Qed.

Lemma title_of_standalone_card (rt : Runtime)
    (appId issue createTime crashCount crashPercentage firstVersion : JsValue) :
  issue_title_text (Standalone.teamsMessage rt appId issue createTime crashCount
                      crashPercentage firstVersion)
  = js_or (prop issue "title") (JStr "Unknown issue").
Proof.
  unfold issue_title_text, card_body, card_content. cbn.
  destruct (truthy (prop issue "subtitle")); reflexivity.
Qed.

Lemma js_or_absent (v d : JsValue) : nullish v = true -> js_or v d = d.
Proof. destruct v; try discriminate; reflexivity. Qed.

(** C8. The builder is total on its eight arguments: for every argument
    object, whichever of the eight properties it has, [buildTeamsCard]
    returns a Document and throws nothing, and the Document is the one the
    specification describes for these arguments, field for field; it is
    well formed.  Its title block carries [issueTitle || "Unknown issue"]:
    a text that is never falsy, and the literal "Unknown issue" when
    [issueTitle] is absent.  The inline card of the standalone handler is
    the described card of its arguments with its styled button, and has
    the same properties. *)
Theorem buildTeamsCard_total (fields : list (string * JsValue)) :
  (exists doc,
     Shared.buildTeamsCard (JObj fields) = Normal doc /\
     doc = Described.card
             (lookup "emoji" fields) (lookup "title" fields)
             (lookup "subtitle" fields) (lookup "issueTitle" fields)
             (lookup "issueSubtitle" fields) (lookup "facts" fields)
             (lookup "consoleLink" fields) (lookup "accentColor" fields) /\
     well_formed doc = true /\
     issue_title_text doc
       = js_or (lookup "issueTitle" fields) (JStr "Unknown issue") /\
     truthy (issue_title_text doc) = true /\
     (nullish (lookup "issueTitle" fields) = true ->
      issue_title_text doc = JStr "Unknown issue")) /\
  (forall rt appId issue createTime crashCount crashPercentage firstVersion,
     let doc := Standalone.teamsMessage rt appId issue createTime crashCount
                  crashPercentage firstVersion in
     doc = with_action_style (JStr "destructive")
             (Described.card
                (JStr "🔥") (JStr "Crashlytics Velocity Alert")
                (JStr "A crash issue is rapidly impacting users")
                (prop issue "title") (prop issue "subtitle")
                (Standalone.facts rt appId issue createTime crashCount
                   crashPercentage firstVersion)
                (Standalone.firebaseConsoleLink appId (prop issue "id"))
                (JStr "Attention")) /\
     well_formed doc = true /\
     issue_title_text doc = js_or (prop issue "title") (JStr "Unknown issue") /\
     truthy (issue_title_text doc) = true /\
     (nullish (prop issue "title") = true ->
      issue_title_text doc = JStr "Unknown issue")).
Proof.
  split.
  - destruct (buildTeamsCard_object fields) as (doc & Hdoc).
    exists doc. split; [exact Hdoc |].
    split; [injection Hdoc as <-; reflexivity |].
    split; [exact (built_card_well_formed _ _ Hdoc) |].
    rewrite (title_of_built_card _ _ Hdoc). split; [reflexivity |].
    split; [now apply truthy_js_or_default |].
    apply js_or_absent.
  - intros rt appId issue createTime crashCount crashPercentage firstVersion doc.
    split; [reflexivity |].
    split; [apply standalone_card_well_formed |].
    subst doc. rewrite title_of_standalone_card. split; [reflexivity |].
    split; [now apply truthy_js_or_default |].
    apply js_or_absent.
Qed.

Lemma buildTeamsCard_total_witness :
  exists doc,
    Shared.buildTeamsCard (JObj []) = Normal doc /\
    well_formed doc = true /\
    issue_title_text doc = JStr "Unknown issue".
Proof.
  destruct (proj1 (buildTeamsCard_total []))
    as (doc & Hdoc & _ & Hwf & _ & _ & Habsent).
  exists doc. split; [exact Hdoc |]. split; [exact Hwf |].
  apply Habsent. reflexivity.
Defined.

(** ** The builder's dependence on its argument *)

(** The builder's result depends on its argument through the eight
    destructured properties only: two arguments that agree on them yield
    equal Documents, whatever else they hold and in whatever order. *)
Theorem buildTeamsCard_deterministic (a b : JsValue) :
  nullish a = false ->
  nullish b = false ->
  (forall k, In k card_parameters -> prop a k = prop b k) ->
  Shared.buildTeamsCard a = Shared.buildTeamsCard b.
Proof.
  intros Ha Hb Hagree.
  unfold Shared.buildTeamsCard. rewrite Ha, Hb.
  rewrite !(Hagree _) by (cbn; tauto). reflexivity.
Qed.

Lemma buildTeamsCard_deterministic_witness :
  Shared.buildTeamsCard
    (JObj [("emoji", JStr "🔥"); ("issueTitle", JStr "NPE")])
  = Shared.buildTeamsCard
      (JObj [("issueTitle", JStr "NPE"); ("requestId", JNum (num_of_Z 7));
             ("emoji", JStr "🔥")]).
Proof.
  apply buildTeamsCard_deterministic; try reflexivity.
  intros k Hk. cbn in Hk.
  repeat (destruct Hk as [<- | Hk]; [reflexivity |]). contradiction.
Defined.

(** ** The two velocity handlers compared *)

Lemma standalone_card_is_styled (rt : Runtime)
    (appId issue createTime crashCount crashPercentage firstVersion : JsValue)
    (doc : JsValue) :
  Shared.Velocity.teamsMessage rt appId issue createTime crashCount
    crashPercentage firstVersion = Normal doc ->
  Standalone.teamsMessage rt appId issue createTime crashCount
    crashPercentage firstVersion
  = with_action_style (JStr "destructive") doc.
Proof. intros H. injection H as <-. reflexivity. Qed.

Lemma with_action_style_differs (style : JsValue) (blocks actions : list JsValue)
    (action : list (string * JsValue)) :
  envelope blocks (JObj action :: actions)
  <> with_action_style style (envelope blocks (JObj action :: actions)).
Proof.
  cbn. intros H. injection H as H.
  apply (f_equal (@length _)) in H. rewrite length_app in H. cbn in H. lia.
Qed.

(** C9 as stated fails: on the specification's full velocity payload the
    standalone handler posts an action with the field [style], the
    refactored handler one without it. *)
Lemma velocity_documents_differ :
  posted (Standalone.sendVelocityAlertToTeams (Sample.runtime Sample.ok)
            Sample.velocity_full)
  <> posted (Shared.sendVelocityAlertToTeams (Sample.runtime Sample.ok)
               Sample.velocity_full)
  /\ map (fun d => map (fun a => prop a "style") (card_actions d))
         (posted (Standalone.sendVelocityAlertToTeams (Sample.runtime Sample.ok)
                    Sample.velocity_full))
     = [[JStr "destructive"]]
  /\ map (fun d => map (fun a => prop a "style") (card_actions d))
         (posted (Shared.sendVelocityAlertToTeams (Sample.runtime Sample.ok)
                    Sample.velocity_full))
     = [[JUndefined]].
Proof.
  assert (Hs : map (fun d => map (fun a => prop a "style") (card_actions d))
                 (posted (Standalone.sendVelocityAlertToTeams
                            (Sample.runtime Sample.ok) Sample.velocity_full))
               = [[JStr "destructive"]]) by (vm_compute; reflexivity).
  assert (Hr : map (fun d => map (fun a => prop a "style") (card_actions d))
                 (posted (Shared.sendVelocityAlertToTeams
                            (Sample.runtime Sample.ok) Sample.velocity_full))
               = [[JUndefined]]) by (vm_compute; reflexivity).
  split; [| split; assumption].
  intros Heq. rewrite Heq, Hr in Hs. discriminate Hs.
Qed.

(** C9, amended. For every velocity event that carries an issue, the
    Document the standalone handler posts is the Document the refactored
    handler posts with one more field, [style: "destructive"], at the end
    of its action button; every other field is the same, in the same
    order, and the two Documents are never equal. *)
Theorem standalone_is_refactored_plus_style (rt : Runtime) (event : JsValue) :
  nullish (event_issue event) = false ->
  exists doc,
    posted (Shared.sendVelocityAlertToTeams rt event) = [doc] /\
    posted (Standalone.sendVelocityAlertToTeams rt event)
    = [with_action_style (JStr "destructive") doc] /\
    with_action_style (JStr "destructive") doc <> doc.
Proof.
  intros H.
  destruct (shared_velocity_delivers rt event fresh H) as (doc & Hdoc & Hrun).
  exists doc. split; [| split].
  - unfold posted. now rewrite Hrun, posted_deliver.
  - rewrite posted_standalone by exact H. f_equal.
    now apply standalone_card_is_styled.
  - injection Hdoc as <-. intros Heq. symmetry in Heq.
    exact (with_action_style_differs _ _ _ _ Heq).
Qed.

Lemma standalone_is_refactored_plus_style_witness :
  nullish (event_issue Sample.velocity_full) = false /\
  exists doc,
    posted (Shared.sendVelocityAlertToTeams (Sample.runtime Sample.ok)
              Sample.velocity_full) = [doc] /\
    posted (Standalone.sendVelocityAlertToTeams (Sample.runtime Sample.ok)
              Sample.velocity_full)
    = [with_action_style (JStr "destructive") doc] /\
    with_action_style (JStr "destructive") doc <> doc.
Proof.
  split; [reflexivity |].
  apply (standalone_is_refactored_plus_style (Sample.runtime Sample.ok)
           Sample.velocity_full).
  reflexivity.
Defined.

(** ** Values of the facts *)

Lemma facts_shared_velocity (rt : Runtime) (event : JsValue) :
  nullish (event_issue event) = false ->
  map card_facts (posted (Shared.sendVelocityAlertToTeams rt event))
  = [elements (Shared.Velocity.facts rt
                 (event_appId event) (event_issue event)
                 (payload_field event "createTime")
                 (payload_field event "crashCount")
                 (payload_field event "crashPercentage")
                 (payload_field event "firstVersion"))].
Proof.
  intros H.
  destruct (shared_velocity_delivers rt event fresh H) as (doc & Hdoc & Hrun).
  unfold posted. rewrite Hrun, posted_deliver. cbn [map].
  now rewrite (facts_of_built_card _ _ Hdoc).
Qed.

Lemma facts_shared_nonfatal (rt : Runtime) (event : JsValue) :
  nullish (event_issue event) = false ->
  map card_facts (posted (Shared.sendNonFatalIssueToTeams rt event))
  = [elements (Shared.NonFatal.facts rt
                 (event_appId event) (event_issue event)
                 (payload_field event "createTime"))].
Proof.
  intros H.
  destruct (shared_nonfatal_delivers rt event fresh H) as (doc & Hdoc & Hrun).
  unfold posted. rewrite Hrun, posted_deliver. cbn [map].
  now rewrite (facts_of_built_card _ _ Hdoc).
Qed.

Lemma facts_standalone (rt : Runtime) (event : JsValue) :
  nullish (event_issue event) = false ->
  map card_facts (posted (Standalone.sendVelocityAlertToTeams rt event))
  = [elements (Standalone.facts rt
                 (event_appId event) (event_issue event)
                 (payload_field event "createTime")
                 (payload_field event "crashCount")
                 (payload_field event "crashPercentage")
                 (payload_field event "firstVersion"))].
Proof.
  intros H. rewrite posted_standalone by exact H. cbn [map].
  unfold standalone_card. now rewrite facts_of_standalone_card.
Qed.





Lemma time_shown (rt : Runtime) (createTime : JsValue) :
  (if truthy createTime
   then JStr (toLocaleString rt (Date_of rt createTime))
   else JStr (toLocaleString rt (Date_now rt)))
  = JStr (toLocaleString rt (alert_time rt createTime)).
Proof. unfold alert_time. now destruct (truthy createTime). Qed.



Lemma digits_non_empty (z : Z) : Number.digits z <> "".
Proof.
  unfold Number.digits, NilZero.string_of_uint.
  destruct (N.to_uint (Z.to_N z)); discriminate.
Qed.









(** ** The time fact *)

(** C6 as stated fails: a payload whose [createTime] is present with the
    value 0, the epoch itself, gets the formatting of the clock, not of its
    timestamp. *)
Lemma epoch_createTime_shown_as_now :
  let rt := Sample.runtime Sample.ok in
  payload_field Sample.velocity_zero "createTime" = JNum (num_of_Z 0) /\
  toLocaleString rt (Date_of rt (JNum (num_of_Z 0))) = "ms 0" /\
  toLocaleString rt (Date_now rt) = "ms 1700000000000" /\
  map (fact_named "🕐 Alert Time")
      (posted (Shared.sendVelocityAlertToTeams rt Sample.velocity_zero))
  = [Some (JStr "ms 1700000000000")] /\
  map (fact_named "🕐 Alert Time")
      (posted (Standalone.sendVelocityAlertToTeams rt Sample.velocity_zero))
  = [Some (JStr "ms 1700000000000")] /\
  map (fact_named "🕐 Detected At")
      (posted (Shared.sendNonFatalIssueToTeams rt Sample.velocity_zero))
  = [Some (JStr "ms 1700000000000")] /\
  JStr "ms 1700000000000"
  <> JStr (toLocaleString rt
             (Date_of rt (payload_field Sample.velocity_zero "createTime"))).
Proof.
  cbv zeta. repeat split; try (vm_compute; reflexivity).
  vm_compute. discriminate.
Qed.

(** C6, amended. For every event that carries an issue, the Alert Time
    (velocity) or Detected At (non-fatal) fact is the platform's locale
    formatting of the alert's time: of [createTime] when it is present and
    truthy (not 0, not the empty string), of the wall clock at handling
    when [createTime] is absent or falsy.  In the absent case the value is
    the formatted clock reading: it is non-empty and it is never "N/A". *)
Theorem time_fact_is_formatted_time (rt : Runtime) (event : JsValue) :
  nullish (event_issue event) = false ->
  let createTime := payload_field event "createTime" in
  let value := JStr (toLocaleString rt (alert_time rt createTime)) in
  (map (fact_named "🕐 Alert Time")
       (posted (Shared.sendVelocityAlertToTeams rt event)) = [Some value] /\
   map (fact_named "🕐 Alert Time")
       (posted (Standalone.sendVelocityAlertToTeams rt event)) = [Some value] /\
   map (fact_named "🕐 Detected At")
       (posted (Shared.sendNonFatalIssueToTeams rt event)) = [Some value]) /\
  (truthy createTime = true ->
   value = JStr (toLocaleString rt (Date_of rt createTime))) /\
  (truthy createTime = false ->
   value = JStr (toLocaleString rt (Date_now rt))) /\
  (nullish createTime = true ->
   value = JStr (toLocaleString rt (Date_now rt)) /\
   value <> JStr "" /\
   value <> JStr "N/A").
Proof.
  intros H createTime value.
  assert (Hfalsy : truthy createTime = false ->
                   value = JStr (toLocaleString rt (Date_now rt))).
  { intros Hc. subst value. unfold alert_time. now rewrite Hc. }
  split; [repeat split | split; [| split]].
  - pose proof (facts_shared_velocity rt event H) as Hfacts.
    destruct (posted _) as [| doc [| ? ?]]; try discriminate Hfacts.
    injection Hfacts as Hfacts. cbn [map]. f_equal.
    subst value createTime. unfold fact_named. rewrite Hfacts. cbn. now rewrite time_shown.
  - pose proof (facts_standalone rt event H) as Hfacts.
    destruct (posted _) as [| doc [| ? ?]]; try discriminate Hfacts.
    injection Hfacts as Hfacts. cbn [map]. f_equal.
    subst value createTime. unfold fact_named. rewrite Hfacts. cbn. now rewrite time_shown.
  - pose proof (facts_shared_nonfatal rt event H) as Hfacts.
    destruct (posted _) as [| doc [| ? ?]]; try discriminate Hfacts.
    injection Hfacts as Hfacts. cbn [map]. f_equal.
    subst value createTime. unfold fact_named. rewrite Hfacts. cbn. now rewrite time_shown.
  - intros Hc. subst value. unfold alert_time. now rewrite Hc.
  - exact Hfalsy.
  - intros Hc.
    assert (Hf : truthy createTime = false) by (destruct createTime; now try discriminate).
    rewrite (Hfalsy Hf). split; [reflexivity |].
    split; intros Heq; injection Heq as Heq.
    + exact (toLocaleString_non_empty rt _ Heq).
    + exact (toLocaleString_not_placeholder rt _ Heq).
Qed.

Lemma time_fact_is_formatted_time_witness :
  nullish (event_issue Sample.nonfatal_bare) = false /\
  payload_field Sample.nonfatal_bare "createTime" = JUndefined /\
  map (fact_named "🕐 Detected At")
      (posted (Shared.sendNonFatalIssueToTeams (Sample.runtime Sample.ok)
                 Sample.nonfatal_bare))
  = [Some (JStr "ms 1700000000000")].
Proof.
  split; [reflexivity | split; [reflexivity |]].
  destruct (time_fact_is_formatted_time (Sample.runtime Sample.ok)
              Sample.nonfatal_bare eq_refl) as [[_ [_ Hdetected]] _].
  rewrite Hdetected. reflexivity.
Defined.

(** ** Events the handlers cannot serve *)

Ltac throws_here := eexists; reflexivity.

Ltac no_data_case H :=
  unfold bind, read, destructure, lift, get, bound;
  match goal with
  | |- context [nullish ?e] =>
      destruct (nullish e) eqn:?; [throws_here |]
  end;
  unfold event_data in H; rewrite H; throws_here.

Lemma shared_velocity_no_data (rt : Runtime) (event : JsValue) (w : World) :
  nullish (event_data event) = true ->
  exists m, Shared.sendVelocityAlertToTeams rt event w = (w, Throw (TypeError m)).
Proof.
  intros H. unfold Shared.sendVelocityAlertToTeams. no_data_case H.
Qed.

Lemma shared_nonfatal_no_data (rt : Runtime) (event : JsValue) (w : World) :
  nullish (event_data event) = true ->
  exists m, Shared.sendNonFatalIssueToTeams rt event w = (w, Throw (TypeError m)).
Proof.
  intros H. unfold Shared.sendNonFatalIssueToTeams. no_data_case H.
Qed.

Lemma standalone_no_data (rt : Runtime) (event : JsValue) (w : World) :
  nullish (event_data event) = true ->
  exists m, Standalone.sendVelocityAlertToTeams rt event w = (w, Throw (TypeError m)).
Proof.
  intros H. unfold Standalone.sendVelocityAlertToTeams. no_data_case H.
Qed.

Lemma data_event_inv (event : JsValue) :
  nullish (event_data event) = false -> nullish event = false.
Proof. destruct event; try discriminate; reflexivity. Qed.

Ltac no_issue_case Hd Hi :=
  pose proof (data_event_inv _ Hd) as He;
  unfold event_data in Hd; unfold event_issue, event_payload in Hi;
  unfold no_issue_error, received, event_issue, event_payload;
  rewrite bind_read by exact He;
  rewrite bind_read by exact Hd;
  unfold bind at 1; cbn [logger.info];
  rewrite bind_read by exact He;
  match goal with
  | |- context [destructure _ ?p "issue"] =>
      destruct (nullish p) eqn:Hp;
      [ unfold bind, read, destructure, lift, get, bound; rewrite Hp; reflexivity
      | rewrite !bind_destructure by exact Hp;
        unfold bind, read, lift, get; rewrite Hi; reflexivity ]
  end.

Lemma shared_velocity_no_issue (rt : Runtime) (event : JsValue) (w : World) :
  nullish (event_data event) = false ->
  nullish (event_issue event) = true ->
  Shared.sendVelocityAlertToTeams rt event w =
  (received "🚨 Crashlytics velocity alert received" event w, Throw (no_issue_error event)).
Proof.
  intros Hd Hi. unfold Shared.sendVelocityAlertToTeams. no_issue_case Hd Hi.
Qed.

Lemma shared_nonfatal_no_issue (rt : Runtime) (event : JsValue) (w : World) :
  nullish (event_data event) = false ->
  nullish (event_issue event) = true ->
  Shared.sendNonFatalIssueToTeams rt event w =
  (received "⚠️ Crashlytics new non-fatal issue received" event w, Throw (no_issue_error event)).
Proof.
  intros Hd Hi. unfold Shared.sendNonFatalIssueToTeams. no_issue_case Hd Hi.
Qed.

Lemma standalone_no_issue (rt : Runtime) (event : JsValue) (w : World) :
  nullish (event_data event) = false ->
  nullish (event_issue event) = true ->
  Standalone.sendVelocityAlertToTeams rt event w =
  (received "🚨 Crashlytics velocity alert received" event w, Throw (no_issue_error event)).
Proof.
  intros Hd Hi. unfold Standalone.sendVelocityAlertToTeams. no_issue_case Hd Hi.
Qed.

Lemma no_data_no_issue (event : JsValue) :
  nullish (event_data event) = true -> nullish (event_issue event) = true.
Proof.
  unfold event_issue, event_payload, event_data.
  destruct (prop event "data"); try discriminate; reflexivity.
Qed.

(** What every handler does, by the shape of its event. *)
Lemma handlers_by_event (headline : string) (h : Runtime -> JsValue -> Js unit)
    (rt : Runtime) (event : JsValue) (w : World) :
  In (headline, h) handlers ->
  (nullish (event_data event) = true ->
   exists m, h rt event w = (w, Throw (TypeError m))) /\
  (nullish (event_data event) = false ->
   nullish (event_issue event) = true ->
   h rt event w = (received headline event w, Throw (no_issue_error event))) /\
  (nullish (event_issue event) = false ->
   exists sent doc,
     h rt event w = deliver rt sent doc (received headline event w)).
Proof.
  intros Hin. cbn in Hin.
  destruct Hin as [Heq | [Heq | [Heq | []]]]; injection Heq as <- <-.
  - split; [apply shared_velocity_no_data |].
    split; [apply shared_velocity_no_issue |].
    intros H. destruct (shared_velocity_delivers rt event w H) as (doc & _ & Hrun).
    eexists _, doc. exact Hrun.
  - split; [apply shared_nonfatal_no_data |].
    split; [apply shared_nonfatal_no_issue |].
    intros H. destruct (shared_nonfatal_delivers rt event w H) as (doc & _ & Hrun).
    eexists _, doc. exact Hrun.
  - split; [apply standalone_no_data |].
    split; [apply standalone_no_issue |].
    intros H. eexists _, _. exact (standalone_run rt event w H).
Qed.

(** X1. An event without [data] (or no event object at all) makes each of
    the three handlers throw a TypeError at once: nothing is logged and no
    request is issued. *)
Theorem event_without_data_throws_first
    (headline : string) (h : Runtime -> JsValue -> Js unit)
    (rt : Runtime) (event : JsValue) (w : World) :
  In (headline, h) handlers ->
  nullish (event_data event) = true ->
  exists m,
    snd (h rt event w) = Throw (TypeError m) /\
    logged (fst (h rt event w)) = logged w /\
    requests (fst (h rt event w)) = requests w.
Proof.
  intros Hin Hd.
  destruct (proj1 (handlers_by_event headline h rt event w Hin) Hd) as (m & ->).
  exists m. repeat split.
Qed.

Lemma event_without_data_throws_first_witness :
  exists m,
    snd (Shared.sendNonFatalIssueToTeams (Sample.runtime Sample.ok)
           (JObj [("appId", JStr "app1")]) fresh) = Throw (TypeError m) /\
    logged (fst (Shared.sendNonFatalIssueToTeams (Sample.runtime Sample.ok)
                   (JObj [("appId", JStr "app1")]) fresh)) = logged fresh /\
    requests (fst (Shared.sendNonFatalIssueToTeams (Sample.runtime Sample.ok)
                     (JObj [("appId", JStr "app1")]) fresh)) = requests fresh.
Proof.
  apply (event_without_data_throws_first
           "⚠️ Crashlytics new non-fatal issue received").
  - cbn. tauto.
  - reflexivity.
Defined.

(** X2. An event with [data] but no issue in its payload is logged on
    receipt, and then each handler throws a TypeError before it builds or
    posts anything: from the destructuring of [event.data.payload] when
    the payload is missing, from the read of [issue.id] when the payload
    is there without an issue.  The receipt is the only entry logged and
    no request is issued. *)
Theorem event_without_issue_logged_then_throws
    (headline : string) (h : Runtime -> JsValue -> Js unit)
    (rt : Runtime) (event : JsValue) (w : World) :
  In (headline, h) handlers ->
  nullish (event_data event) = false ->
  nullish (event_issue event) = true ->
  snd (h rt event w)
  = Throw (if nullish (event_payload event)
           then cannot_destructure "event.data.payload" (event_payload event)
                  "issue"
           else cannot_read (event_issue event) "id") /\
  logged (fst (h rt event w)) =
  (logged w ++ [mkLog Info [JStr headline; event_payload event]])%list /\
  requests (fst (h rt event w)) = requests w.
Proof.
  intros Hin Hd Hi.
  rewrite (proj1 (proj2 (handlers_by_event headline h rt event w Hin)) Hd Hi).
  repeat split.
Qed.

Lemma event_without_issue_logged_then_throws_witness :
  let missing_payload := JObj [("appId", JStr "app1"); ("data", JObj [])] in
  let missing_issue :=
    JObj [("appId", JStr "app1");
          ("data", JObj [("payload", JObj [("createTime", JStr "now")])])] in
  Standalone.sendVelocityAlertToTeams (Sample.runtime Sample.ok)
    missing_payload fresh
  = (mkWorld [mkLog Info [JStr "🚨 Crashlytics velocity alert received";
                          JUndefined]] [],
     Throw (TypeError "Cannot destructure property 'issue' of 'event.data.payload' as it is undefined.")) /\
  Standalone.sendVelocityAlertToTeams (Sample.runtime Sample.ok)
    missing_issue fresh
  = (mkWorld [mkLog Info [JStr "🚨 Crashlytics velocity alert received";
                          JObj [("createTime", JStr "now")]]] [],
     Throw (TypeError "Cannot read properties of undefined (reading 'id')")).
Proof.
  cbv zeta. split.
  - destruct (event_without_issue_logged_then_throws
                "🚨 Crashlytics velocity alert received"
                Standalone.sendVelocityAlertToTeams (Sample.runtime Sample.ok)
                (JObj [("appId", JStr "app1"); ("data", JObj [])]) fresh)
      as (Hthrow & Hlog & Hreq); [cbn; tauto | reflexivity | reflexivity |].
    destruct (Standalone.sendVelocityAlertToTeams _ _ _) as [[l r] c].
    cbn in Hthrow, Hlog, Hreq. now subst.
  - destruct (event_without_issue_logged_then_throws
                "🚨 Crashlytics velocity alert received"
                Standalone.sendVelocityAlertToTeams (Sample.runtime Sample.ok)
                (JObj [("appId", JStr "app1");
                       ("data", JObj [("payload",
                                       JObj [("createTime", JStr "now")])])])
                fresh)
      as (Hthrow & Hlog & Hreq); [cbn; tauto | reflexivity | reflexivity |].
    destruct (Standalone.sendVelocityAlertToTeams _ _ _) as [[l r] c].
    cbn in Hthrow, Hlog, Hreq. now subst.
Defined.

(** ** One delivery attempt *)

Lemma deliver_logged_length (rt : Runtime) (sent : string) (message : JsValue)
    (w : World) :
  length (logged (fst (deliver rt sent message w))) = S (length (logged w)).
Proof.
  rewrite deliver_settled.
  destruct (axios.settle _); cbn; rewrite length_app; cbn; lia.
Qed.



(** X4. The refactored handlers end as their delivery ends.  On an event
    that carries an issue each one logs the receipt, builds its card and
    hands it to [sendToTeams]; the handler returns normally exactly when
    the POST of that card is answered in the success range, throws the
    delivery's error otherwise, and leaves exactly two log entries: the
    receipt, then the status or the failure. *)
Theorem refactored_handlers_end_as_delivery (rt : Runtime) (event : JsValue)
    (w : World) :
  nullish (event_issue event) = false ->
  (exists doc,
     shared_velocity_card rt event = Normal doc /\
     Shared.sendVelocityAlertToTeams rt event w =
     Shared.sendToTeams rt doc
       (received "🚨 Crashlytics velocity alert received" event w) /\
     (snd (Shared.sendVelocityAlertToTeams rt event w) = Normal tt <->
      exists r, network rt (webhook_request rt doc) = HttpResponse r /\
                200 <= status r < 300) /\
     (forall e,
        snd (Shared.sendVelocityAlertToTeams rt event w) = Throw e ->
        axios.settle (network rt (webhook_request rt doc)) = Throw e) /\
     length (logged (fst (Shared.sendVelocityAlertToTeams rt event w)))
     = (length (logged w) + 2)%nat) /\
  (exists doc,
     shared_nonfatal_card rt event = Normal doc /\
     Shared.sendNonFatalIssueToTeams rt event w =
     Shared.sendToTeams rt doc
       (received "⚠️ Crashlytics new non-fatal issue received" event w) /\
     (snd (Shared.sendNonFatalIssueToTeams rt event w) = Normal tt <->
      exists r, network rt (webhook_request rt doc) = HttpResponse r /\
                200 <= status r < 300) /\
     (forall e,
        snd (Shared.sendNonFatalIssueToTeams rt event w) = Throw e ->
        axios.settle (network rt (webhook_request rt doc)) = Throw e) /\
     length (logged (fst (Shared.sendNonFatalIssueToTeams rt event w)))
     = (length (logged w) + 2)%nat).
Proof.
  intros H.
  assert (Hthrow : forall sent doc w' e,
             snd (deliver rt sent doc w') = Throw e ->
             axios.settle (network rt (webhook_request rt doc)) = Throw e).
  { intros sent doc w' e. rewrite deliver_settled.
    destruct (axios.settle _); cbn; [discriminate |].
    intros He. injection He as <-. reflexivity. }
  split.
  - destruct (shared_velocity_delivers rt event w H) as (doc & Hdoc & Hrun).
    exists doc. rewrite Hrun.
    split; [exact Hdoc |]. split; [reflexivity |].
    split; [rewrite deliver_delivery_of; apply delivery_of_normal |].
    split; [apply Hthrow |].
    rewrite deliver_logged_length. unfold received. cbn.
    rewrite length_app. cbn. lia.
  - destruct (shared_nonfatal_delivers rt event w H) as (doc & Hdoc & Hrun).
    exists doc. rewrite Hrun.
    split; [exact Hdoc |]. split; [reflexivity |].
    split; [rewrite deliver_delivery_of; apply delivery_of_normal |].
    split; [apply Hthrow |].
    rewrite deliver_logged_length. unfold received. cbn.
    rewrite length_app. cbn. lia.
Qed.

Lemma refactored_handlers_end_as_delivery_witness :
  nullish (event_issue Sample.nonfatal_bare) = false /\
  outcome (Shared.sendNonFatalIssueToTeams (Sample.runtime Sample.server_error)
             Sample.nonfatal_bare)
  = Throw (AxiosError "Request failed with status code 500"
             (Some (mkResponse 500 (JStr "Internal Server Error")))).
Proof.
  split; [reflexivity |].
  destruct (refactored_handlers_end_as_delivery
              (Sample.runtime Sample.server_error) Sample.nonfatal_bare fresh
              eq_refl) as [_ (doc & _ & Hrun & _)].
  unfold outcome. rewrite Hrun. reflexivity.
Defined.

(** ** Identifiers of any shape *)






(** ** The header of each card *)

Lemma header_of_built_card (fields : list (string * JsValue)) (doc : JsValue) :
  Shared.buildTeamsCard (JObj fields) = Normal doc ->
  header_texts doc =
  [(lookup "emoji" fields, JUndefined);
   (lookup "title" fields, lookup "accentColor" fields);
   (lookup "subtitle" fields, JUndefined)].
Proof. intros H. injection H as <-. reflexivity. Qed.

(** X7. The header of the posted card is fixed per handler, whatever the
    event: both velocity handlers show the fire emoji, the headline
    "Crashlytics Velocity Alert" in the colour "Attention" and their
    subheadline; the non-fatal handler shows the warning emoji and
    "New Non-Fatal Issue Detected" in the colour "Warning".  Only the
    headline carries a colour. *)
Theorem header_fixed_per_handler (rt : Runtime) (event : JsValue) :
  nullish (event_issue event) = false ->
  let velocity :=
    [(JStr "🔥", JUndefined);
     (JStr "Crashlytics Velocity Alert", JStr "Attention");
     (JStr "A crash issue is rapidly impacting users", JUndefined)] in
  map header_texts (posted (Shared.sendVelocityAlertToTeams rt event))
    = [velocity] /\
  map header_texts (posted (Standalone.sendVelocityAlertToTeams rt event))
    = [velocity] /\
  map header_texts (posted (Shared.sendNonFatalIssueToTeams rt event))
    = [[(JStr "⚠️", JUndefined);
        (JStr "New Non-Fatal Issue Detected", JStr "Warning");
        (JStr "Crashlytics found a new non-fatal error in your app", JUndefined)]].
Proof.
  intros H velocity. split; [| split].
  - destruct (shared_velocity_delivers rt event fresh H) as (doc & Hdoc & Hrun).
    unfold posted. rewrite Hrun, posted_deliver. cbn [map].
    now rewrite (header_of_built_card _ _ Hdoc).
  - now rewrite posted_standalone by exact H.
  - destruct (shared_nonfatal_delivers rt event fresh H) as (doc & Hdoc & Hrun).
    unfold posted. rewrite Hrun, posted_deliver. cbn [map].
    now rewrite (header_of_built_card _ _ Hdoc).
Qed.

Lemma header_fixed_per_handler_witness :
  map header_texts
      (posted (Shared.sendNonFatalIssueToTeams (Sample.runtime Sample.ok)
                 Sample.nonfatal_bare))
  = [[(JStr "⚠️", JUndefined);
      (JStr "New Non-Fatal Issue Detected", JStr "Warning");
      (JStr "Crashlytics found a new non-fatal error in your app", JUndefined)]].
Proof.
  apply (header_fixed_per_handler (Sample.runtime Sample.ok) Sample.nonfatal_bare).
  reflexivity.
Defined.

(** ** The builder and its facts *)

(** X8. The builder hands its facts on untouched: the last block of the
    body is the FactSet whose [facts] property is the [facts] argument
    itself, whatever it is and whatever the other seven arguments are; for
    an array, the entries of the card are its elements, in the given
    order. *)
Theorem builder_renders_given_facts
    (fields : list (string * JsValue)) (doc : JsValue) :
  Shared.buildTeamsCard (JObj fields) = Normal doc ->
  last (card_body doc) JUndefined
  = JObj [("type", JStr "FactSet"); ("facts", lookup "facts" fields)] /\
  filter (has_type "FactSet") (card_body doc)
  = [JObj [("type", JStr "FactSet"); ("facts", lookup "facts" fields)]] /\
  (forall items,
     lookup "facts" fields = JArr items ->
     card_facts doc = items /\
     fact_titles doc = map fact_title items /\
     fact_values doc = map fact_value items).
Proof.
  intros Hdoc. pose proof (facts_of_built_card _ _ Hdoc) as Hfacts.
  split; [| split].
  - injection Hdoc as <-. unfold card_body, card_content. cbn.
    destruct (truthy (lookup "issueSubtitle" fields)); reflexivity.
  - injection Hdoc as <-. unfold card_body, card_content. cbn.
    destruct (truthy (lookup "issueSubtitle" fields)); reflexivity.
  - intros items Hitems. unfold fact_titles, fact_values.
    rewrite Hfacts, Hitems. repeat split.
Qed.

Lemma builder_renders_given_facts_witness :
  exists doc,
    Shared.buildTeamsCard
      (JObj [("facts", JArr [JObj [("title", JStr "b"); ("value", JStr "2")];
                             JObj [("title", JStr "a"); ("value", JStr "1")]]);
             ("issueSubtitle", JStr "at Foo.bar")])
    = Normal doc /\
    fact_titles doc = [JStr "b"; JStr "a"].
Proof.
  eexists. split; [reflexivity |].
  exact (proj1 (proj2 (proj2 (proj2 (builder_renders_given_facts
           [("facts", JArr [JObj [("title", JStr "b"); ("value", JStr "2")];
                            JObj [("title", JStr "a"); ("value", JStr "1")]]);
            ("issueSubtitle", JStr "at Foo.bar")] _ eq_refl)) _ eq_refl))).
Defined.

(** ** Payload fields of any type *)




(** ** Title and subtitle of the posted card *)

Lemma body_length_of_built_card (fields : list (string * JsValue)) (doc : JsValue) :
  Shared.buildTeamsCard (JObj fields) = Normal doc ->
  length (card_body doc)
  = (if truthy (lookup "issueSubtitle" fields) then 5 else 4)%nat /\
  existsb is_subtitle_block (card_body doc)
  = truthy (lookup "issueSubtitle" fields).
Proof.
  intros H. injection H as <-. unfold card_body, card_content. cbn.
  destruct (truthy (lookup "issueSubtitle" fields)); split; reflexivity.
Qed.

Lemma body_length_of_standalone_card (rt : Runtime)
    (appId issue createTime crashCount crashPercentage firstVersion : JsValue) :
  let doc := Standalone.teamsMessage rt appId issue createTime crashCount
               crashPercentage firstVersion in
  length (card_body doc)
  = (if truthy (prop issue "subtitle") then 5 else 4)%nat /\
  existsb is_subtitle_block (card_body doc) = truthy (prop issue "subtitle").
Proof.
  unfold card_body, card_content. cbn.
  destruct (truthy (prop issue "subtitle")); split; reflexivity.
Qed.

(** X10. Every handler titles its card with the payload's issue: the
    title block of the posted card reads [issue.title || "Unknown issue"]
    (so an empty title reads "Unknown issue" too), and the card has the
    subtitle block, five blocks instead of four, exactly when
    [issue.subtitle] is truthy. *)
Theorem posted_card_titles_the_issue
    (headline : string) (h : Runtime -> JsValue -> Js unit)
    (rt : Runtime) (event : JsValue) :
  In (headline, h) handlers ->
  nullish (event_issue event) = false ->
  exists doc,
    posted (h rt event) = [doc] /\
    issue_title_text doc
      = js_or (issue_field event "title") (JStr "Unknown issue") /\
    (truthy (issue_field event "title") = false ->
     issue_title_text doc = JStr "Unknown issue") /\
    existsb is_subtitle_block (card_body doc)
      = truthy (issue_field event "subtitle") /\
    length (card_body doc)
      = (if truthy (issue_field event "subtitle") then 5 else 4)%nat.
Proof.
  intros Hin H.
  assert (Hfalsy : forall doc,
             issue_title_text doc
             = js_or (issue_field event "title") (JStr "Unknown issue") ->
             truthy (issue_field event "title") = false ->
             issue_title_text doc = JStr "Unknown issue").
  { intros doc -> Ht. unfold js_or. now rewrite Ht. }
  cbn in Hin. destruct Hin as [Heq | [Heq | [Heq | []]]]; injection Heq as <- <-.
  - destruct (shared_velocity_delivers rt event fresh H) as (doc & Hdoc & Hrun).
    exists doc. split; [unfold posted; now rewrite Hrun, posted_deliver |].
    pose proof (title_of_built_card _ _ Hdoc) as Ht.
    destruct (body_length_of_built_card _ _ Hdoc) as [Hlen Hsub].
    split; [exact Ht |]. split; [exact (Hfalsy doc Ht) |].
    split; [exact Hsub | exact Hlen].
  - destruct (shared_nonfatal_delivers rt event fresh H) as (doc & Hdoc & Hrun).
    exists doc. split; [unfold posted; now rewrite Hrun, posted_deliver |].
    pose proof (title_of_built_card _ _ Hdoc) as Ht.
    destruct (body_length_of_built_card _ _ Hdoc) as [Hlen Hsub].
    split; [exact Ht |]. split; [exact (Hfalsy doc Ht) |].
    split; [exact Hsub | exact Hlen].
  - exists (standalone_card rt event).
    split; [exact (posted_standalone rt event H) |].
    unfold standalone_card.
    pose proof (title_of_standalone_card rt (event_appId event)
                  (event_issue event) (payload_field event "createTime")
                  (payload_field event "crashCount")
                  (payload_field event "crashPercentage")
                  (payload_field event "firstVersion")) as Ht.
    destruct (body_length_of_standalone_card rt (event_appId event)
                (event_issue event) (payload_field event "createTime")
                (payload_field event "crashCount")
                (payload_field event "crashPercentage")
                (payload_field event "firstVersion")) as [Hlen Hsub].
    split; [exact Ht |]. split; [exact (Hfalsy _ Ht) |].
    split; [exact Hsub | exact Hlen].
Qed.

Lemma posted_card_titles_the_issue_witness :
  let event := Sample.event (JStr "app1") [("id", JStr "I1"); ("title", JStr "")] [] in
  exists doc,
    posted (Shared.sendVelocityAlertToTeams (Sample.runtime Sample.ok) event)
    = [doc] /\
    issue_title_text doc = JStr "Unknown issue" /\
    length (card_body doc) = 4%nat.
Proof.
  cbv zeta.
  destruct (posted_card_titles_the_issue
              "🚨 Crashlytics velocity alert received"
              Shared.sendVelocityAlertToTeams (Sample.runtime Sample.ok)
              (Sample.event (JStr "app1") [("id", JStr "I1"); ("title", JStr "")] []))
    as (doc & Hposted & _ & Htitle & _ & Hlen).
  - cbn. tauto.
  - reflexivity.
  - exists doc. split; [exact Hposted |]. split; [exact (Htitle eq_refl) | exact Hlen].
Defined.

(** ** Counts and percentages in exponent notation *)

Example scenario_velocity_exponent :
  let event :=
    Sample.event (JStr "app1") [("id", JStr "I1")]
      [("crashCount", JNum (mkNum (10 ^ 21) 0));
       ("crashPercentage", JNum (mkNum 1 7))] in
  velocity_typed event = true /\
  map (fun d => firstn 2 (fact_values d))
      (posted (Standalone.sendVelocityAlertToTeams (Sample.runtime Sample.ok)
                 event))
  = [[JStr "1e+21"; JStr "1e-7%"]].
Proof. cbv zeta. split; vm_compute; reflexivity. Qed.
